(** * GlucoAudio: the analysis pipeline and its contextual scoring

    A shallow embedding of the deterministic parts of the voice-based glucose
    estimation application: the rule-based context scorer
    ([app/services/context_service.py]), the audio quality assessor
    ([app/agents/audio_processor.py], [app/services/supabase_service.py]), the
    embedding extractor ([app/agents/embedding_extractor.py]), the inference
    gateway ([app/agents/claude_inference.py],
    [app/services/anthropic_service.py]) and the response synthesizer
    ([app/agents/voice_synthesis.py], [app/services/elevenlabs_service.py]).

    Python dictionaries are association lists in insertion order, [None] is
    the [None] of an [option], a raised exception is the [None] of a result
    (or [Raised] where a handler tells the two apart), and the vendor
    libraries (numpy, librosa, the speech model, the HTTP transport) are
    operations of type classes. *)

From Stdlib Require Import List String Ascii Bool Arith ZArith QArith Lia.
From Stdlib Require Import Permutation.
Import ListNotations.

Set Warnings "-register-all".

Local Close Scope Q_scope.
Local Open Scope nat_scope.
Local Open Scope string_scope.
Local Open Scope list_scope.

(** ** Python values shared by the modules *)

Module Py.

(** [x in xs] for a list of strings. *)
Definition in_list (s : string) (xs : list string) : bool :=
  existsb (String.eqb s) xs.

(** [sum(1 for s in xs if p(s))]. *)
Definition sum_ones {A : Type} (p : A -> bool) (xs : list A) : nat :=
  list_sum (map (fun _ => 1) (filter p xs)).

(** [d.get(k)] on a dictionary kept as an association list. *)
Fixpoint dict_get {V : Type} (d : list (string * V)) (k : string) : option V :=
  match d with
  | [] => None
  | (k', v) :: d' => if String.eqb k k' then Some v else dict_get d' k
  end.

(** [k in d]. *)
Definition dict_mem {V : Type} (d : list (string * V)) (k : string) : bool :=
  match dict_get d k with Some _ => true | None => false end.

(** [d[k] = v]: the value of an existing key is replaced in place, a new
    key is appended. *)
Fixpoint dict_set {V : Type} (d : list (string * V)) (k : string) (v : V)
  : list (string * V) :=
  match d with
  | [] => [(k, v)]
  | (k', v') :: d' =>
      if String.eqb k k' then (k', v) :: d' else (k', v') :: dict_set d' k v
  end.

(** Sequencing of calls that may raise: the first [None] ends the
    block. *)
Definition bind {A B : Type} (x : option A) (k : A -> option B) : option B :=
  match x with
  | Some a => k a
  | None => None
  end.

End Py.

Notation "x <- c ;; k" := (Py.bind c (fun x => k))
  (at level 61, c at next level, right associativity).
Notation "' p <- c ;; k" := (Py.bind c (fun p => k))
  (at level 61, p pattern, c at next level, right associativity).

(** ** Context scorer: [app/services/context_service.py] *)

Module ContextService.
Import Py.

Record metabolic_phase := {
  phase : string;
  expected_pattern : string;
  is_critical_window : bool;
  special_notes : string
}.

(** The dictionary literal [phases] of [determine_metabolic_phase]. *)
Definition phases : list (string * metabolic_phase) :=
  [ ("Currently eating/just finished (0-30 min)",
      {| phase := "Early Postprandial";
         expected_pattern := "Initial glucose rise";
         is_critical_window := false;
         special_notes := "early insulin response phase, voice may show stress markers" |});
    ("30 minutes to 1 hour ago",
      {| phase := "Early Postprandial";
         expected_pattern := "Glucose rising";
         is_critical_window := false;
         special_notes := "early postprandial phase, glucose beginning to rise" |});
    ("1-2 hours ago",
      {| phase := "Peak Postprandial";
         expected_pattern := "Glucose at or near peak";
         is_critical_window := true;
         special_notes := "peak postprandial glucose phase (most critical for detection)" |});
    ("2-4 hours ago",
      {| phase := "Late Postprandial";
         expected_pattern := "Glucose normalizing";
         is_critical_window := false;
         special_notes := "late postprandial, glucose normalizing in healthy individuals" |});
    ("4-8 hours ago",
      {| phase := "Post-absorptive";
         expected_pattern := "Return to baseline";
         is_critical_window := false;
         special_notes := "return to baseline, fasting-like state" |});
    ("8+ hours/overnight fasting",
      {| phase := "Fasting";
         expected_pattern := "Baseline glucose levels";
         is_critical_window := false;
         special_notes := "true fasting state, baseline glucose patterns" |});
    ("I don't remember",
      {| phase := "Unknown";
         expected_pattern := "Unpredictable";
         is_critical_window := false;
         special_notes := "uncertainty flag, reduced confidence in predictions" |}) ].

Definition unknown_phase (notes : string) : metabolic_phase :=
  {| phase := "Unknown";
     expected_pattern := "Unpredictable";
     is_critical_window := false;
     special_notes := notes |}.

(** [determine_metabolic_phase(meal_timing)]; the argument is [None] or a
    string, and [not meal_timing] holds for [None] and for the empty
    string. *)
Definition determine_metabolic_phase (meal_timing : option string)
  : metabolic_phase :=
  match meal_timing with
  | None => unknown_phase "insufficient meal timing data"
  | Some "" => unknown_phase "insufficient meal timing data"
  | Some m =>
      match dict_get phases m with
      | Some p => p
      | None => unknown_phase "unrecognized meal timing pattern"
      end
  end.

Record symptom_cluster := {
  cluster_type : string;
  direction : string;
  urgency : string
}.

Definition hyperglycemia_symptoms : list string :=
  [ "Unusual thirst or dry mouth"; "Frequent urination"; "Blurred vision" ].

Definition hypoglycemia_symptoms : list string :=
  [ "Shakiness or tremors"; "Confusion or difficulty concentrating" ].

Definition nonspecific_symptoms : list string :=
  [ "Fatigue or drowsiness"; "Nausea or vomiting" ].

(** [analyze_symptom_constellation(symptoms)]; the argument is [None] or a
    list of strings. *)
Definition analyze_symptom_constellation (symptoms : option (list string))
  : symptom_cluster :=
  match symptoms with
  | None | Some [] =>
      {| cluster_type := "Asymptomatic"; direction := "Neutral"; urgency := "Low" |}
  | Some symptoms =>
      let hyper_count := sum_ones (fun s => in_list s hyperglycemia_symptoms) symptoms in
      let hypo_count := sum_ones (fun s => in_list s hypoglycemia_symptoms) symptoms in
      let nonspecific_count := sum_ones (fun s => in_list s nonspecific_symptoms) symptoms in
      let '(direction, cluster_type) :=
        if (hypo_count <? hyper_count)%nat then ("Hyperglycemic", "Hyperglycemia Cluster")
        else if (hyper_count <? hypo_count)%nat then ("Hypoglycemic", "Hypoglycemia Cluster")
        else ("Mixed", "Mixed Symptom Cluster") in
      let total_symptoms := List.length symptoms in
      let urgency :=
        if (3 <=? total_symptoms)%nat then "High"
        else if (total_symptoms =? 2)%nat then "Moderate"
        else "Low" in
      let urgency :=
        if in_list "Confusion or difficulty concentrating" symptoms then "High"
        else urgency in
      {| cluster_type := cluster_type; direction := direction; urgency := urgency |}
  end.

(** The urgency that the total number of reported symptoms gives before
    the confusion override. *)
Definition urgency_of_total (n : nat) : string :=
  match n with
  | 0 | 1 => "Low"
  | 2 => "Moderate"
  | _ => "High"
  end.

(** The dictionary literal of [get_special_considerations]. *)
Definition considerations : list (string * string) :=
  [ ("No diabetes, no family history",
      "minimal baseline risk with focus on acute glucose spikes");
    ("No diabetes, family history of diabetes",
      "enhanced sensitivity for prediabetic patterns");
    ("Prediabetes/borderline diabetes",
      "monitoring for progression indicators");
    ("Type 1 diabetes",
      "high variability with focus on rapid changes and ketone-related voice markers");
    ("Type 2 diabetes, well-controlled",
      "moderate stability with attention to medication compliance indicators");
    ("Type 2 diabetes, poorly controlled",
      "high baseline risk with multiple complication indicators");
    ("Gestational diabetes",
      "pregnancy-specific voice changes with hormonal considerations");
    ("Unknown",
      "general glucose assessment without specific risk stratification") ].

(** [get_special_considerations(diabetes_status)]. *)
Definition get_special_considerations (diabetes_status : string) : string :=
  match dict_get considerations diabetes_status with
  | Some text => text
  | None => "general glucose assessment without specific risk stratification"
  end.

(** The dictionary literal of [calculate_risk_level]. *)
Definition risk_levels : list (string * Q) :=
  [ ("No diabetes, no family history", 1 # 10);
    ("No diabetes, family history of diabetes", 3 # 10);
    ("Prediabetes/borderline diabetes", 5 # 10);
    ("Type 1 diabetes", 7 # 10);
    ("Type 2 diabetes, well-controlled", 5 # 10);
    ("Type 2 diabetes, poorly controlled", 8 # 10);
    ("Gestational diabetes", 6 # 10) ]%Q.

(** [calculate_risk_level(diabetes_status)]. *)
Definition calculate_risk_level (diabetes_status : string) : Q :=
  match dict_get risk_levels diabetes_status with
  | Some risk => risk
  | None => (4 # 10)%Q
  end.

(** The dictionary literal of [get_variability_profile]. *)
Definition profiles : list (string * string) :=
  [ ("No diabetes, no family history", "Low variability, stable patterns");
    ("No diabetes, family history of diabetes",
      "Low-moderate variability, possible postprandial spikes");
    ("Prediabetes/borderline diabetes",
      "Moderate variability, elevated postprandial response");
    ("Type 1 diabetes", "High variability, rapid fluctuations possible");
    ("Type 2 diabetes, well-controlled",
      "Moderate variability, managed fluctuations");
    ("Type 2 diabetes, poorly controlled",
      "High variability, unpredictable patterns");
    ("Gestational diabetes",
      "Moderate-high variability, hormone-influenced patterns") ].

(** [get_variability_profile(diabetes_status)]. *)
Definition get_variability_profile (diabetes_status : string) : string :=
  match dict_get profiles diabetes_status with
  | Some profile => profile
  | None => "Unknown variability profile"
  end.

(** The order of the three urgency levels. *)
Definition urgency_rank (urgency : string) : nat :=
  if String.eqb urgency "High" then 2
  else if String.eqb urgency "Moderate" then 1
  else 0.

End ContextService.

(** ** Vendor numerics: floats, numpy and librosa

    The floating-point arithmetic and the signal-processing routines are not
    code of the application.  They are operations of two interfaces, so that
    every statement below holds for any behaviour of them; a call that raises
    is [None]. *)

Module Numeric.

Class FloatArith (F : Type) := {
  (** the float denoted by a numeric literal *)
  f_lit : Q -> F;
  f_sub : F -> F -> F;
  f_mul : F -> F -> F;
  f_div : F -> F -> F;
  (** [np.log10] *)
  f_log10 : F -> F;
  (** [x > y] *)
  f_gtb : F -> F -> bool;
  (** [int(x)]: raises on a NaN and on an infinity *)
  f_int : F -> option Z;
  (** [np.mean] and [np.var] of a one-dimensional array *)
  np_mean : list F -> F;
  np_var : list F -> F
}.

(** [librosa]: the feature routines return a matrix, one row per
    coefficient and one column per frame. *)
Class Librosa (F : Type) := {
  spectral_centroid : list F -> Z -> option (list (list F));
  spectral_bandwidth : list F -> Z -> option (list (list F));
  spectral_rolloff : list F -> Z -> option (list (list F));
  spectral_contrast : list F -> Z -> option (list (list F));
  chroma_stft : list F -> Z -> option (list (list F));
  mfcc : list F -> Z -> nat -> option (list (list F));
  resample : list F -> Z -> Z -> option (list F);
  get_duration : list F -> Z -> option F
}.

(** [m[0]]: the first row, an [IndexError] when there is none. *)
Definition row0 {F : Type} (m : list (list F)) : option (list F) :=
  match m with
  | r :: _ => Some r
  | [] => None
  end.

(** [np.mean(m, axis=1)]: the mean of every row. *)
Definition mean_axis1 {F : Type} `{FloatArith F} (m : list (list F)) : list F :=
  map np_mean m.

End Numeric.


(** ** Audio quality assessor: [app/agents/audio_processor.py] *)

Module AudioProcessor.
Import Py Numeric.

Record processed_audio (F : Type) := {
  waveform : list F;
  sample_rate : Z;
  duration : F
}.
Arguments waveform {F}.
Arguments sample_rate {F}.
Arguments duration {F}.

Record quality_metrics (F : Type) := {
  snr : F;
  metrics_duration : F;
  clarity : Z;
  spectral_quality : Z
}.
Arguments snr {F}.
Arguments metrics_duration {F}.
Arguments clarity {F}.
Arguments spectral_quality {F}.

(** The arithmetic that the signal-to-noise expression evaluates, in
    order. *)
Inductive arith_event (F : Type) :=
| DivideBy (denominator : F)
| Log10Of (argument : F).
Arguments DivideBy {F}.
Arguments Log10Of {F}.

Section Quality.
Context {F : Type} `{FloatArith F} `{Librosa F}.

(** [signal_power = np.mean(waveform ** 2)]. *)
Definition signal_power (w : list F) : F :=
  np_mean (map (fun x => f_mul x x) w).

(** [noise_estimate = np.var(waveform) * 0.1]. *)
Definition noise_estimate (w : list F) : F :=
  f_mul (np_var w) (f_lit (1 # 10)).

(** [10 * np.log10(signal_power / noise_estimate) if noise_estimate > 0
    else 30.0], together with the divisions and logarithms evaluated on
    the way: a conditional expression evaluates its condition first and
    then one branch only. *)
Definition signal_to_noise (w : list F) : F * list (arith_event F) :=
  let signal_power := signal_power w in
  let noise_estimate := noise_estimate w in
  if f_gtb noise_estimate (f_lit 0) then
    let ratio := f_div signal_power noise_estimate in
    (f_mul (f_lit 10) (f_log10 ratio), [DivideBy noise_estimate; Log10Of ratio])
  else
    (f_lit 30, []).

(** [min(100, max(0, int(np.mean(cent) / 50)))]. *)
Definition clarity_score (cent : list F) : option Z :=
  n <- f_int (f_div (np_mean cent) (f_lit 50)) ;;
  Some (Z.min 100 (Z.max 0 n)).

(** [min(100, max(0, int(100 - np.mean(spec_bw) / 100)))]. *)
Definition spectral_quality_score (spec_bw : list F) : option Z :=
  n <- f_int (f_sub (f_lit 100) (f_div (np_mean spec_bw) (f_lit 100))) ;;
  Some (Z.min 100 (Z.max 0 n)).

(** [AudioProcessorAgent.assess_quality]: no handler, an exception of a
    vendor routine or of [int] leaves the method. *)
Definition assess_quality (pa : processed_audio F)
  : option (quality_metrics F) :=
  let waveform := waveform pa in
  let sr := sample_rate pa in
  let snr := fst (signal_to_noise waveform) in
  m <- spectral_centroid waveform sr ;;
  cent <- row0 m ;;
  clarity_score <- clarity_score cent ;;
  m <- spectral_bandwidth waveform sr ;;
  spec_bw <- row0 m ;;
  spectral_quality <- spectral_quality_score spec_bw ;;
  Some {| snr := snr;
          metrics_duration := duration pa;
          clarity := clarity_score;
          spectral_quality := spectral_quality |}.

(** Both scores of a record lie between 0 and 100. *)
Definition in_range (m : quality_metrics F) : Prop :=
  (0 <= clarity m <= 100)%Z /\ (0 <= spectral_quality m <= 100)%Z.

(** A division event whose denominator has passed the test [> 0]. *)
Definition guarded (e : arith_event F) : Prop :=
  match e with
  | DivideBy d => f_gtb d (f_lit 0) = true
  | Log10Of _ => True
  end.

End Quality.

End AudioProcessor.

(** ** Audio quality at upload: [app/services/supabase_service.py] *)

Module SupabaseService.
Import Py Numeric AudioProcessor.

Section Quality.
Context {F : Type} `{FloatArith F} `{Librosa F}.

(** The record returned by the handler of [_assess_audio_quality]. *)
Definition default_quality : quality_metrics F :=
  {| snr := f_lit 20;
     metrics_duration := f_lit 5;
     clarity := 70;
     spectral_quality := 75 |}.

(** The body of the [try] block, once the upload is saved to the temporary
    file, from the result of [librosa.load]. *)
Definition assess_loaded (loaded : option (list F * Z))
  : option (quality_metrics F) :=
  '(y, sr) <- loaded ;;
  duration <- get_duration y sr ;;
  let snr := fst (signal_to_noise y) in
  m <- spectral_centroid y sr ;;
  cent <- row0 m ;;
  clarity_score <- clarity_score cent ;;
  m <- spectral_bandwidth y sr ;;
  spec_bw <- row0 m ;;
  spectral_quality <- spectral_quality_score spec_bw ;;
  Some {| snr := snr;
          metrics_duration := duration;
          clarity := clarity_score;
          spectral_quality := spectral_quality |}.

(** [SupabaseManager._assess_audio_quality]: any exception of the block
    is answered with the default record. *)
Definition _assess_audio_quality (loaded : option (list F * Z))
  : quality_metrics F :=
  match assess_loaded loaded with
  | Some metrics => metrics
  | None => default_quality
  end.

End Quality.

End SupabaseService.

(** ** Embedding extractor: [app/agents/embedding_extractor.py] *)

Module EmbeddingExtractor.
Import Py Numeric AudioProcessor.

(** The pretrained speech model and its processor. *)
Class SpeechModel (F M P : Type) := {
  (** [Wav2Vec2Model.from_pretrained(...)], [None] when it raises *)
  model_from_pretrained : option M;
  (** [Wav2Vec2Processor.from_pretrained(...)], [None] when it raises *)
  processor_from_pretrained : option P;
  (** [processor(waveform, sampling_rate=...)] followed by
      [model(input_values).last_hidden_state.mean(dim=1).numpy()[0]] *)
  hidden_state_mean : M -> P -> list F -> Z -> option (list F)
}.

(** The attributes of an [EmbeddingAgent]. *)
Record agent (M P : Type) := {
  model : option M;
  processor : option P
}.
Arguments model {M P}.
Arguments processor {M P}.

Section Extractor.
Context {F M P : Type} `{FloatArith F} `{Librosa F} `{SpeechModel F M P}.

(** [EmbeddingAgent.__init__]. *)
Definition init : agent M P := {| model := None; processor := None |}.

(** [_load_model]: the model is loaded once; when either load raises,
    both attributes are reset to [None]. *)
Definition _load_model (self : agent M P) : agent M P :=
  match model self with
  | None =>
      match model_from_pretrained, processor_from_pretrained with
      | Some m, Some p => {| model := Some m; processor := Some p |}
      | _, _ => {| model := None; processor := None |}
      end
  | Some _ => self
  end.

(** The closing block of both extraction paths: longer than 512 is cut
    to the first 512 entries, shorter is padded with zeros at the end. *)
Definition ensure_512 (embeddings : list F) : list F :=
  if (512 <? List.length embeddings)%nat then firstn 512 embeddings
  else if (List.length embeddings <? 512)%nat then
    embeddings ++ repeat (f_lit 0) (512 - List.length embeddings)
  else embeddings.

Definition _extract_with_wav2vec (m : M) (p : P)
    (waveform : list F) (sample_rate : Z) : option (list F) :=
  '(waveform, sample_rate) <-
    (if (sample_rate =? 16000)%Z then Some (waveform, sample_rate)
     else waveform <- resample waveform sample_rate 16000 ;;
          Some (waveform, 16000%Z)) ;;
  embeddings <- hidden_state_mean m p waveform sample_rate ;;
  Some (ensure_512 embeddings).

Definition _extract_fallback_features
    (waveform : list F) (sample_rate : Z) : option (list F) :=
  mfccs <- mfcc waveform sample_rate 40 ;;
  let mfcc_features := mean_axis1 mfccs in
  spectral_centroid <- spectral_centroid waveform sample_rate ;;
  spectral_bandwidth <- spectral_bandwidth waveform sample_rate ;;
  spectral_rolloff <- spectral_rolloff waveform sample_rate ;;
  spectral_contrast <- spectral_contrast waveform sample_rate ;;
  chroma <- chroma_stft waveform sample_rate ;;
  let features :=
    mfcc_features ++ mean_axis1 spectral_centroid
      ++ mean_axis1 spectral_bandwidth ++ mean_axis1 spectral_rolloff
      ++ mean_axis1 spectral_contrast ++ mean_axis1 chroma in
  Some (ensure_512 features).

(** [extract_embeddings]: the model path when both attributes are set
    and the path does not raise, the fallback path otherwise.  The agent
    comes back with the attributes [_load_model] has set. *)
Definition extract_embeddings (self : agent M P) (pa : processed_audio F)
  : agent M P * option (list F) :=
  let waveform := waveform pa in
  let sample_rate := sample_rate pa in
  let self := _load_model self in
  match model self, processor self with
  | Some m, Some p =>
      match _extract_with_wav2vec m p waveform sample_rate with
      | Some embeddings => (self, Some embeddings)
      | None => (self, _extract_fallback_features waveform sample_rate)
      end
  | _, _ => (self, _extract_fallback_features waveform sample_rate)
  end.

End Extractor.

End EmbeddingExtractor.

(** ** JSON values and the Python operations the gateway applies to them *)

Module Json.
Import Py.

(** What [json.loads] returns: [None], [bool], [int], [float], [str],
    [list] or [dict].  An [int], which Python keeps without bound, is the
    integer itself.  A [float] is the rational the float is: how a literal
    is rounded to it is the reader's part, and the floats that are not
    finite have no value here. *)
Inductive json :=
| JNull
| JBool (b : bool)
| JInt (n : Z)
| JNum (q : Q)
| JStr (s : string)
| JArr (items : list json)
| JObj (members : list (string * json)).

(** The standard library's [json.loads]; [None] when it raises. *)
Class JsonLib := { json_loads : string -> option json }.

(** [bool(v)]. *)
Definition truthy (v : json) : bool :=
  match v with
  | JNull => false
  | JBool b => b
  | JInt n => negb (n =? 0)%Z
  | JNum q => negb (Qeq_bool q 0)
  | JStr s => negb (String.eqb s "")
  | JArr items => negb (Nat.eqb (List.length items) 0)
  | JObj members => negb (Nat.eqb (List.length members) 0)
  end.

(** [needle in s] for two strings. *)
Fixpoint contains (needle s : string) : bool :=
  match s with
  | EmptyString => String.eqb needle ""
  | String _ s' => String.prefix needle s || contains needle s'
  end.

(** [k in x] for a string [k]: key membership in a [dict], element
    membership in a [list], substring test in a [str], and a [TypeError]
    for the values that are not containers. *)
Definition py_in (k : string) (x : json) : option bool :=
  match x with
  | JObj members => Some (dict_mem members k)
  | JArr items =>
      Some (existsb (fun v => match v with
                              | JStr s => String.eqb s k
                              | _ => false
                              end) items)
  | JStr s => Some (contains k s)
  | _ => None
  end.

(** [x[k]] for a string [k]: defined on a [dict] that has the key. *)
Definition py_getitem (x : json) (k : string) : option json :=
  match x with
  | JObj members => dict_get members k
  | _ => None
  end.

(** [x[k] = v] for a string [k]: defined on a [dict] only. *)
Definition py_setitem (x : json) (k : string) (v : json) : option json :=
  match x with
  | JObj members => Some (JObj (dict_set members k v))
  | _ => None
  end.

(** [x.get(k, default)]: an [AttributeError] on anything but a [dict]. *)
Definition py_get (x : json) (k : string) (default : json) : option json :=
  match x with
  | JObj members =>
      Some (match dict_get members k with Some v => v | None => default end)
  | _ => None
  end.

(** [s.find(c)] for a one-character [c]: the least index, [-1] if none. *)
Fixpoint find_from (c : ascii) (s : string) (i : Z) : Z :=
  match s with
  | EmptyString => (-1)%Z
  | String a s' => if Ascii.eqb a c then i else find_from c s' (i + 1)%Z
  end.

Definition find (c : ascii) (s : string) : Z := find_from c s 0%Z.

(** [s.rfind(c)]: the greatest index, [-1] if none. *)
Fixpoint rfind_from (c : ascii) (s : string) (i last : Z) : Z :=
  match s with
  | EmptyString => last
  | String a s' =>
      rfind_from c s' (i + 1)%Z (if Ascii.eqb a c then i else last)
  end.

Definition rfind (c : ascii) (s : string) : Z := rfind_from c s 0%Z (-1)%Z.

(** [a['glucose_assessment'][field]]. *)
Definition assessment_field (a : json) (field : string) : option json :=
  g <- py_getitem a "glucose_assessment" ;; py_getitem g field.

(** [s[start:stop]] for [0 <= start]. *)
Definition slice (s : string) (start stop : Z) : string :=
  String.substring (Z.to_nat start) (Z.to_nat (stop - start)) s.


(** The braces that delimit the span: [i] is the first opening brace and
    [j] the last closing brace of the text. *)
Definition delimits (text : string) (i j : Z) : Prop :=
  String.get (Z.to_nat i) text = Some "{"%char
  /\ (forall k, k < Z.to_nat i -> String.get k text <> Some "{"%char)
  /\ String.get (Z.to_nat j) text = Some "}"%char
  /\ (forall k, Z.to_nat j < k -> String.get k text <> Some "}"%char).

End Json.

(** ** Reasoning-service wrapper: [app/services/anthropic_service.py] *)

Module AnthropicService.
Import Py Json.

(** The vendor client and the prompt texts of the wrapper. *)
Class AnthropicClient := {
  (** [client.messages.create(model=..., max_tokens=..., system=...,
      messages=[...])] followed by [response.content[0].text]: arguments
      are the model, the token budget, the system prompt and the user
      prompt; [None] when the call raises *)
  messages_create : string -> Z -> string -> string -> option string;
  (** [CLAUDE_ANALYSIS_PROMPT] of [agent_system_prompt.py] *)
  CLAUDE_ANALYSIS_PROMPT : string;
  (** the user prompt [analyze_voice_data] assembles from the conversation
      history and the audio metrics; [None] when the assembly raises *)
  voice_data_prompt : json -> option json -> option string
}.

Definition default_model : string := "claude-3-7-sonnet-20250219".

Section Service.
Context `{JsonLib} `{AnthropicClient}.

(** [generate_message]: the text of the reply, [None] on any exception. *)
Definition generate_message (system_prompt user_prompt : string)
    (max_tokens : Z) (model : option string) : option string :=
  let model := match model with Some m => m | None => default_model end in
  messages_create model max_tokens system_prompt user_prompt.

(** [generate_structured_output]: the JSON between the first opening and
    the last closing brace of the reply, [None] when there is no such
    span or on any exception. *)
Definition generate_structured_output (system_prompt user_prompt : string)
    (max_tokens : Z) (model : option string) : option json :=
  let model := match model with Some m => m | None => default_model end in
  text_response <- messages_create model max_tokens system_prompt user_prompt ;;
  let json_start := find "{" text_response in
  let json_end := (rfind "}" text_response + 1)%Z in
  if (0 <=? json_start)%Z && (json_start <? json_end)%Z then
    json_loads (slice text_response json_start json_end)
  else None.

(** [AnthropicService._generate_fallback_response]. *)
Definition _generate_fallback_response : json :=
  JObj
    [ ("glucose_assessment", JObj
        [ ("primary_estimate", JStr "normal");
          ("estimated_range", JStr "80-120 mg/dL");
          ("confidence_score", JNum (3 # 4));
          ("risk_level", JStr "minimal") ]);
      ("analysis_details", JObj
        [ ("voice_biomarkers_detected", JArr
            [ JStr "baseline vocal patterns";
              JStr "normal formant frequency distribution";
              JStr "stable harmonic-to-noise ratio" ]);
          ("supporting_context", JStr "The conversation indicates no significant health concerns that would suggest abnormal glucose levels.");
          ("conflicting_signals", JStr "None detected in the available data.");
          ("quality_factors", JStr "Audio quality sufficient for basic analysis.") ]);
      ("clinical_insights", JObj
        [ ("immediate_recommendations", JStr "Continue with your normal routine. No immediate action required based on this assessment.");
          ("monitoring_suggestions", JStr "Regular self-monitoring is recommended as this technology is still experimental.");
          ("medical_consultation", JStr "No urgent consultation needed based on this assessment.") ]);
      ("limitations", JObj
        [ ("confidence_factors", JStr "This is a fallback response due to technical issues with the analysis system.");
          ("disclaimer", JStr "This is an experimental technology and should not replace traditional glucose monitoring or medical advice.") ]) ].

(** [analyze_voice_data]: the structured output of the service, and the
    fallback when there is none, when it is falsy, and on any
    exception. *)
Definition analyze_voice_data (conversation_history : json)
    (audio_metrics : option json) : json :=
  match voice_data_prompt conversation_history audio_metrics with
  | Some user_prompt =>
      match generate_structured_output
              CLAUDE_ANALYSIS_PROMPT user_prompt 4000 None with
      | Some result =>
          if truthy result then result else _generate_fallback_response
      | None => _generate_fallback_response
      end
  | None => _generate_fallback_response
  end.

End Service.

End AnthropicService.

(** ** Inference gateway: [app/agents/claude_inference.py] *)

Module ClaudeInference.
Import Py Json.

(** What the agent relies on besides the wrapper above. *)
Class AgentRuntime := {
  (** [build_analysis_prompt]: the system and the user prompt; [None] when
      the assembly raises *)
  build_analysis_prompt : json -> json -> json -> option (string * string);
  (** whether [await] hands over the plain value a synchronous method has
      returned; CPython raises a [TypeError] for a value that is not
      awaitable *)
  plain_value_awaitable : bool
}.

(** The two dictionaries [analyze_glucose] returns. *)
Inductive analysis :=
| MissingInput (error : string) (glucose_prediction : json)
| Analysed (glucose_prediction : json) (raw_claude_response : option string).

Definition glucose_prediction (a : analysis) : json :=
  match a with
  | MissingInput _ p => p
  | Analysed p _ => p
  end.

(** [ClaudeInferenceAgent._generate_fallback_response]. *)
Definition _generate_fallback_response : json :=
  JObj
    [ ("glucose_assessment", JObj
        [ ("primary_estimate", JStr "normal");
          ("estimated_range", JStr "80-120 mg/dL");
          ("confidence_score", JNum (3 # 10));
          ("risk_level", JStr "minimal") ]);
      ("analysis_details", JObj
        [ ("voice_biomarkers_detected", JArr [ JStr "baseline vocal patterns" ]);
          ("supporting_context", JStr "Limited analysis due to API error");
          ("conflicting_signals", JStr "Unable to process voice data completely");
          ("quality_factors", JStr "Analysis compromised due to technical issues") ]);
      ("clinical_insights", JObj
        [ ("immediate_recommendations", JStr "Please try again or use traditional glucose monitoring");
          ("monitoring_suggestions", JStr "Continue with your regular monitoring schedule");
          ("medical_consultation", JStr "Follow your healthcare provider's advice") ]);
      ("limitations", JObj
        [ ("confidence_factors", JStr "Technical error in processing");
          ("disclaimer", JStr "This is an experimental technology and should not replace traditional glucose monitoring") ]) ].

Definition required_sections : list string :=
  [ "glucose_assessment"; "analysis_details"; "clinical_insights"; "limitations" ].

(** The loop of [_validate_response]:
    [if section not in response: response[section] = {}]. *)
Fixpoint ensure_sections (sections : list string) (response : json)
  : option json :=
  match sections with
  | [] => Some response
  | section :: sections =>
      present <- py_in section response ;;
      response <- (if present then Some response
                   else py_setitem response section (JObj [])) ;;
      ensure_sections sections response
  end.

(** [if field not in response[section]: response[section][field] = value];
    the assignment updates the dictionary held by [response]. *)
Definition default_field (response : json) (section field : string)
    (value : json) : option json :=
  inner <- py_getitem response section ;;
  present <- py_in field inner ;;
  if present then Some response
  else inner <- py_setitem inner field value ;;
       py_setitem response section inner.

(** [_validate_response]: the response after the in-place updates, [None]
    when an update raises. *)
Definition _validate_response (response : json) : option json :=
  response <- ensure_sections required_sections response ;;
  present <- py_in "glucose_assessment" response ;;
  if present then
    response <- default_field response "glucose_assessment"
                  "primary_estimate" (JStr "normal") ;;
    default_field response "glucose_assessment"
      "confidence_score" (JNum (1 # 2))
  else Some response.

(** The members of the [glucose_assessment] object of a response, none
    when the section is absent. *)
Definition assessment_members (d : list (string * json)) : list (string * json) :=
  match dict_get d "glucose_assessment" with
  | Some (JObj g) => g
  | _ => []
  end.

(** A response that carries the four sections and whose [glucose_assessment]
    passes the two membership tests of [_validate_response]. *)
Definition populated (response : json) : Prop :=
  exists d g,
    response = JObj d
    /\ (forall s, In s required_sections -> dict_mem d s = true)
    /\ dict_get d "glucose_assessment" = Some g
    /\ py_in "primary_estimate" g = Some true
    /\ py_in "confidence_score" g = Some true.

Section Agent.
Context `{JsonLib} `{AnthropicService.AnthropicClient} `{AgentRuntime}.

(** [call_claude]: the awaited result of [generate_message], [None] on
    any exception. *)
Definition call_claude (prompt : string * string) : option string :=
  let reply :=
    AnthropicService.generate_message (fst prompt) (snd prompt) 2000
      (Some "claude-3-7-sonnet-20250219") in
  if plain_value_awaitable then reply else None.

(** [parse_response]. *)
Definition parse_response (claude_response : option string) : json :=
  match claude_response with
  | None => _generate_fallback_response
  | Some "" => _generate_fallback_response
  | Some claude_response =>
      let json_start := find "{" claude_response in
      let json_end := (rfind "}" claude_response + 1)%Z in
      if (0 <=? json_start)%Z && (json_start <? json_end)%Z then
        let json_str := slice claude_response json_start json_end in
        match (parsed <- json_loads json_str ;; _validate_response parsed) with
        | Some parsed => parsed
        | None => _generate_fallback_response
        end
      else _generate_fallback_response
  end.

(** [analyze_glucose]; [None] when [build_analysis_prompt] raises. *)
Definition analyze_glucose (embeddings user_context audio_quality : json)
  : option analysis :=
  if negb (truthy embeddings) || negb (truthy user_context) then
    Some (MissingInput "Missing embeddings or user context"
            _generate_fallback_response)
  else
    prompt <- build_analysis_prompt embeddings user_context audio_quality ;;
    let claude_response := call_claude prompt in
    let glucose_prediction := parse_response claude_response in
    Some (Analysed glucose_prediction claude_response).


(** The responses [parse_response] answers with the fallback: no reply,
    an empty reply, a reply without a brace span, a span that is not JSON,
    and a parsed value on which the validation raises. *)
Definition unusable (claude_response : option string) : Prop :=
  match claude_response with
  | None => True
  | Some text =>
      text = ""
      \/ (find "{" text < 0)%Z
      \/ (rfind "}" text < find "{" text)%Z
      \/ json_loads (slice text (find "{" text) (rfind "}" text + 1)) = None
      \/ exists parsed,
           json_loads (slice text (find "{" text) (rfind "}" text + 1))
           = Some parsed
           /\ _validate_response parsed = None
  end.

End Agent.

End ClaudeInference.

(** ** Voice service wrapper: [app/services/elevenlabs_service.py] *)

Module ElevenLabsService.

(** The HTTP transport, the temporary file and the clock. *)
Class Transport := {
  (** [requests.post(url, headers=..., json=data)] for the text, the two
      voice settings and the output format: the status code and the body,
      [None] when the request raises *)
  requests_post : string -> string -> Q -> Q -> string -> option (Z * string);
  (** writing the body to a fresh temporary file: its path, [None] when
      the write raises *)
  write_temp_file : string -> option string;
  (** [datetime.now().strftime("%Y%m%d%H%M%S")] *)
  timestamp : string
}.

Definition api_url : string := "https://api.elevenlabs.io/v1".

Section Service.
Context `{Transport}.

(** [text_to_speech]: the path of the audio file, and [None] for a
    status other than 200 and on any exception. *)
Definition text_to_speech (text voice_id : string)
    (stability similarity_boost : Q) (output_format : string)
  : option string :=
  let url := (api_url ++ "/text-to-speech/" ++ voice_id)%string in
  match requests_post url text stability similarity_boost output_format with
  | Some (status_code, content) =>
      if (status_code =? 200)%Z then
        match write_temp_file content with
        | Some temp_path => Some temp_path
        | None => None
        end
      else None
  | None => None
  end.

End Service.

(** [self.voice_ids] of the service. *)
Definition voice_ids : list (string * string) :=
  [ ("serious_medical_voice", "21m00Tcm4TlvDq8ikWAM");
    ("confident_assistant", "D38z5RcWu1voky8WS1ja");
    ("cautious_assistant", "pNInz6obpgDQGcFmaJgB") ].

End ElevenLabsService.

(** ** Response synthesizer: [app/agents/voice_synthesis.py] *)

Module VoiceSynthesis.
Import Py Json.

(** The result of a call that may raise, where the caller's handler tells
    a raise from a returned [None]. *)
Inductive outcome (A : Type) :=
| Returned (a : A)
| Raised.
Arguments Returned {A}.
Arguments Raised {A}.

(** The [text_to_speech] method of the agent's [elevenlabs_service]
    attribute, as the agent sees it, and the clock. *)
Class VoiceService := {
  service_text_to_speech :
    string -> string -> Q -> Q -> string -> outcome (option string);
  now_timestamp : string
}.

(** The three f-string templates of [create_voice_script], after
    [strip()]: the interpolated values are the arguments, the confidence
    one that [.0f] can print. *)
Class ScriptText := {
  (** risk level, estimate, confidence, immediate recommendations *)
  urgent_script : json -> json -> Q -> json -> string;
  (** estimate, confidence, immediate recommendations, monitoring
      suggestions *)
  informative_script : json -> Q -> json -> json -> string;
  (** estimate, confidence, confidence factors *)
  hedged_script : json -> Q -> json -> string
}.

Record voice_config := {
  voice_id : string;
  stability : Q;
  clarity : Q
}.

(** [self.voice_ids] of an agent whose constructor has completed. *)
Definition voice_ids : list (string * string) :=
  [ ("serious_medical_voice", "21m00Tcm4TlvDq8ikWAM");
    ("confident_assistant", "D38z5RcWu1voky8WS1ja");
    ("cautious_assistant", "pNInz6obpgDQGcFmaJgB") ].

(** [self.voice_ids[name]] for the three names of the literal. *)
Definition voice_of (name : string) : string :=
  match dict_get voice_ids name with
  | Some id => id
  | None => ""
  end.

Record voice_reply := {
  error : option string;
  voice_response : option string;
  voice_script : option string
}.

(** The number a value stands for in [confidence > 0.7]; the comparison
    raises a [TypeError] for a value that is not a number.  No float lies
    between the float of the literal [0.7] and seven tenths, so a number
    exceeds the one exactly when it exceeds the other. *)
Definition number_of (v : json) : option Q :=
  match v with
  | JNum q => Some q
  | JInt n => Some (inject_Z n)
  | JBool b => Some (if b then 1%Q else 0%Q)
  | _ => None
  end.

(** Whether the conversion of an [int] to a [float] returns: it raises an
    [OverflowError] for an integer that rounds to [2 ** 1024] or beyond. *)
Definition fits_float (n : Z) : bool :=
  (Z.abs n <? 2 ^ 1024 - 2 ^ 970)%Z.

(** The confidence that [{confidence*100:.0f}] shows, [None] when the
    interpolation raises: the product raises a [TypeError] for [None] and
    for a dictionary, the format [.0f] a [ValueError] for the repeated
    string and a [TypeError] for the repeated list, and it converts an
    integer product to a float, which raises the [OverflowError].  The
    product of a float is a float, which the format always prints. *)
Definition shown_confidence (v : json) : option Q :=
  match v with
  | JInt n => if fits_float (n * 100) then Some (inject_Z n) else None
  | _ => number_of v
  end.

(** [risk_level in ['high', 'critical']]. *)
Definition is_high_or_critical (risk_level : json) : bool :=
  match risk_level with
  | JStr s => String.eqb s "high" || String.eqb s "critical"
  | _ => false
  end.

Definition fallback_script : string :=
  "I'm sorry, but I couldn't generate a complete analysis of your voice sample. Please try again or use traditional glucose monitoring methods.".




Section Agent.
Context `{VoiceService} `{ScriptText}.

(** The [try] block of [create_voice_script]; [None] when it raises.  The
    comparison [confidence > 0.7] is made on the number as it is, an
    integer of any size included; the template of the branch then
    interpolates the confidence. *)
Definition script_for (claude_output : json) : option (string * voice_config) :=
  glucose_assessment <- py_getitem claude_output "glucose_assessment" ;;
  confidence <- py_getitem glucose_assessment "confidence_score" ;;
  risk_level <- py_getitem glucose_assessment "risk_level" ;;
  estimate <- py_getitem glucose_assessment "primary_estimate" ;;
  if is_high_or_critical risk_level then
    let voice_config :=
      {| voice_id := voice_of "serious_medical_voice";
         stability := 8 # 10; clarity := 9 # 10 |} in
    c <- shown_confidence confidence ;;
    clinical_insights <- py_getitem claude_output "clinical_insights" ;;
    recommendations <- py_get clinical_insights "immediate_recommendations"
                         (JStr "Please monitor your glucose levels.") ;;
    Some (urgent_script risk_level estimate c recommendations, voice_config)
  else
    c <- number_of confidence ;;
    if negb (Qle_bool c (7 # 10)) then
      let voice_config :=
        {| voice_id := voice_of "confident_assistant";
           stability := 7 # 10; clarity := 8 # 10 |} in
      c <- shown_confidence confidence ;;
      clinical_insights <- py_getitem claude_output "clinical_insights" ;;
      recommendations <- py_get clinical_insights "immediate_recommendations"
                           (JStr "Continue monitoring your glucose levels.") ;;
      monitoring <- py_get clinical_insights "monitoring_suggestions"
                      (JStr "Pay attention to any changes in how you feel.") ;;
      Some (informative_script estimate c recommendations monitoring, voice_config)
    else
      let voice_config :=
        {| voice_id := voice_of "cautious_assistant";
           stability := 6 # 10; clarity := 7 # 10 |} in
      c <- shown_confidence confidence ;;
      limitations <- py_getitem claude_output "limitations" ;;
      factors <- py_get limitations "confidence_factors"
                   (JStr "Several factors affected the analysis quality.") ;;
      Some (hedged_script estimate c factors, voice_config).

(** [create_voice_script]: the handler answers any exception of the
    block with the fallback script and the cautious voice. *)
Definition create_voice_script (claude_output user_profile : json)
  : string * voice_config :=
  match script_for claude_output with
  | Some result => result
  | None =>
      (fallback_script,
       {| voice_id := voice_of "cautious_assistant";
          stability := 6 # 10; clarity := 7 # 10 |})
  end.

(** [synthesize_voice]: the placeholder address once the call has
    returned, [None] when the call raises. *)
Definition synthesize_voice (script : string) (voice_config : voice_config)
  : option string :=
  match service_text_to_speech script (voice_id voice_config)
          (stability voice_config) (clarity voice_config)
          "mp3_44100_128" with
  | Returned audio_data =>
      Some ("https://storage.example.com/voice_responses/"
              ++ now_timestamp ++ ".mp3")%string
  | Raised => None
  end.

(** [synthesize_response]; [None] when [prediction.get] raises, that is
    when [prediction] is truthy and not a dictionary. *)
Definition synthesize_response (prediction user_profile : json)
  : option voice_reply :=
  let missing :=
    {| error := Some "Missing glucose prediction";
       voice_response := None;
       voice_script := None |} in
  if negb (truthy prediction) then Some missing
  else
    glucose_prediction <- py_get prediction "glucose_prediction" JNull ;;
    if negb (truthy glucose_prediction) then Some missing
    else
      let '(script, voice_config) :=
        create_voice_script glucose_prediction user_profile in
      let audio_response := synthesize_voice script voice_config in
      Some {| error := None;
              voice_response := audio_response;
              voice_script := Some script |}.

End Agent.

(** The agent's service attribute is an [ElevenLabsService]: its
    [text_to_speech] handles every exception itself and returns. *)
#[export] Instance elevenlabs_voice_service
    `{ElevenLabsService.Transport} : VoiceService :=
  {| service_text_to_speech := fun text voice_id stability similarity_boost fmt =>
       Returned (ElevenLabsService.text_to_speech
                   text voice_id stability similarity_boost fmt);
     now_timestamp := ElevenLabsService.timestamp |}.

End VoiceSynthesis.

(** ** Orchestrator: [app/services/portia_service.py] *)

Module PortiaService.
Import Py Json.

(** What the synchronous pipeline takes from outside the modelled code. *)
Class PortiaWorld := {
  (** the [quality_metrics] dictionary of [_preprocess_audio_sync]: the
      numbers it draws, or the numbers of its handler *)
  drawn_quality_metrics : json;
  (** [random.uniform(-1.0, 1.0)] for the entry of the given index *)
  random_entry : nat -> Q;
  (** the context text [_run_claude_inference_sync] assembles from the user
      context, enriched with what it finds in the database, the number of
      embeddings and the audio quality; [None] when the assembly raises *)
  formatted_context : json -> nat -> json -> option string;
  (** [int(confidence * 100)]; [None] when it raises *)
  percent_of : json -> option Z;
  (** the response text of [_synthesize_voice_sync] after [strip()], for the
      estimate, the range, the percentage, the risk level and the
      recommendations *)
  response_text : json -> json -> Z -> json -> json -> string
}.

(** The two dictionaries [run_glucose_analysis_sync] returns. *)
Inductive run_result :=
| Succeeded (session_id : string) (prediction : json)
    (voice_response : option string) (confidence : json)
| Failed.

Section Pipeline.
Context `{JsonLib} `{AnthropicService.AnthropicClient}
        `{ElevenLabsService.Transport} `{PortiaWorld}.

(** [_preprocess_audio_sync]: both of its paths return this dictionary. *)
Definition _preprocess_audio_sync (audio_data : json) : json :=
  JObj [ ("processed_audio", audio_data);
         ("quality_metrics", drawn_quality_metrics) ].

(** [_extract_embeddings_sync]:
    [[random.uniform(-1.0, 1.0) for _ in range(embedding_dim)]]. *)
Definition _extract_embeddings_sync (processed_audio : json) : list Q :=
  let embedding_dim := 512 in
  map random_entry (seq 0 embedding_dim).

(** [_run_claude_inference_sync]: the analysis of the wrapper; [None] when
    the assembly of the context or the closing [print], which reads
    [analysis.get('glucose_assessment', {}).get('confidence_score', 0.5)],
    raises. *)
Definition _run_claude_inference_sync
    (embeddings : list Q) (user_context audio_quality : json) : option json :=
  formatted_context <-
    formatted_context user_context (List.length embeddings) audio_quality ;;
  let analysis :=
    AnthropicService.analyze_voice_data (JStr formatted_context)
      (Some audio_quality) in
  glucose_assessment <- py_get analysis "glucose_assessment" (JObj []) ;;
  printed <- py_get glucose_assessment "confidence_score" (JNum (1 # 2)) ;;
  Some analysis.

(** [_synthesize_voice_sync]: the path [text_to_speech] returns, which is
    [None] for a failed request; the outer [None] is an exception. *)
Definition _synthesize_voice_sync (prediction user_context : json)
  : option (option string) :=
  glucose_assessment <- py_get prediction "glucose_assessment" (JObj []) ;;
  primary_estimate <- py_get glucose_assessment "primary_estimate" (JStr "normal") ;;
  estimated_range <-
    py_get glucose_assessment "estimated_range" (JStr "80-120 mg/dL") ;;
  confidence <- py_get glucose_assessment "confidence_score" (JNum (1 # 2)) ;;
  risk_level <- py_get glucose_assessment "risk_level" (JStr "minimal") ;;
  clinical_insights <- py_get prediction "clinical_insights" (JObj []) ;;
  recommendations <-
    py_get clinical_insights "immediate_recommendations"
      (JStr "No specific recommendations at this time.") ;;
  percent <- percent_of confidence ;;
  let response_text :=
    response_text primary_estimate estimated_range percent risk_level
      recommendations in
  match dict_get ElevenLabsService.voice_ids "serious_medical_voice" with
  | Some voice_id =>
      Some (ElevenLabsService.text_to_speech response_text voice_id
              (7 # 10) (7 # 10) "mp3_44100_128")
  | None => None
  end.

(** [run_glucose_analysis_sync]: the handler answers any exception of the
    stages with the failure dictionary.  [_store_results_sync] handles its
    own exceptions and its reply is not part of the result. *)
Definition run_glucose_analysis_sync
    (audio_data user_context : json) (session_id : string) : run_result :=
  let processed_audio := _preprocess_audio_sync audio_data in
  let embeddings := _extract_embeddings_sync processed_audio in
  match
    (quality_metrics <- py_get processed_audio "quality_metrics" (JObj []) ;;
     prediction <- _run_claude_inference_sync embeddings user_context quality_metrics ;;
     voice_response <- _synthesize_voice_sync prediction user_context ;;
     glucose_assessment <- py_get prediction "glucose_assessment" (JObj []) ;;
     confidence <- py_get glucose_assessment "confidence_score" (JNum (1 # 2)) ;;
     Some (Succeeded session_id prediction voice_response confidence))
  with
  | Some result => result
  | None => Failed
  end.

End Pipeline.

End PortiaService.

(** ** Data models: [app/models/prediction.py], [app/models/voice_session.py] *)

Module Models.
Import Py Json.

(** [a or b]. *)
Definition py_or (a b : json) : json := if truthy a then a else b.

(** [d.get(k)], with [None] for a missing key. *)
Definition get (d : list (string * json)) (k : string) : json :=
  match dict_get d k with Some v => v | None => JNull end.

(** [d.get(k, default)]. *)
Definition get_or (d : list (string * json)) (k : string) (default : json) : json :=
  match dict_get d k with Some v => v | None => default end.

(** What a constructor call would draw: the text of [uuid.uuid4()] and the
    value of [datetime.now()]. *)
Record draw := {
  uuid4 : string;
  now : json
}.

Module GlucosePrediction.

Record t := {
  id : json;
  session_id : json;
  prediction_result : json;
  confidence_score : json;
  claude_response : json;
  created_at : json
}.

(** [GlucosePrediction.__init__]. *)
Definition init (env : draw)
    (id session_id prediction_result confidence_score claude_response
       created_at : json) : t :=
  {| id := py_or id (JStr (uuid4 env));
     session_id := session_id;
     prediction_result := py_or prediction_result (JObj []);
     confidence_score := confidence_score;
     claude_response := py_or claude_response (JObj []);
     created_at := py_or created_at (now env) |}.

(** [GlucosePrediction.from_dict], for [data] that is [None] or a
    dictionary. *)
Definition from_dict (env : draw) (data : option (list (string * json)))
  : option t :=
  match data with
  | None | Some [] => None
  | Some data =>
      Some (init env (get data "id") (get data "session_id")
              (get_or data "prediction_result" (JObj []))
              (get data "confidence_score")
              (get_or data "claude_response" (JObj []))
              (get data "created_at"))
  end.

(** [GlucosePrediction.to_dict]. *)
Definition to_dict (self : t) : list (string * json) :=
  [ ("id", id self);
    ("session_id", session_id self);
    ("prediction_result", prediction_result self);
    ("confidence_score", confidence_score self);
    ("claude_response", claude_response self);
    ("created_at", created_at self) ].

End GlucosePrediction.

Module VoiceSession.

Record t := {
  id : json;
  user_id : json;
  audio_file_path : json;
  embeddings : json;
  quality_metrics : json;
  user_context : json;
  created_at : json
}.

(** [VoiceSession.__init__]. *)
Definition init (env : draw)
    (id user_id audio_file_path embeddings quality_metrics user_context
       created_at : json) : t :=
  {| id := py_or id (JStr (uuid4 env));
     user_id := user_id;
     audio_file_path := audio_file_path;
     embeddings := embeddings;
     quality_metrics := py_or quality_metrics (JObj []);
     user_context := py_or user_context (JObj []);
     created_at := py_or created_at (now env) |}.

(** [VoiceSession.from_dict], for [data] that is [None] or a dictionary. *)
Definition from_dict (env : draw) (data : option (list (string * json)))
  : option t :=
  match data with
  | None | Some [] => None
  | Some data =>
      Some (init env (get data "id") (get data "user_id")
              (get data "audio_file_path") (get data "embeddings")
              (get_or data "quality_metrics" (JObj []))
              (get_or data "user_context" (JObj []))
              (get data "created_at"))
  end.

(** [VoiceSession.to_dict]. *)
Definition to_dict (self : t) : list (string * json) :=
  [ ("id", id self);
    ("user_id", user_id self);
    ("audio_file_path", audio_file_path self);
    ("embeddings", embeddings self);
    ("quality_metrics", quality_metrics self);
    ("user_context", user_context self);
    ("created_at", created_at self) ].

End VoiceSession.

End Models.

(** ** Prediction records: [SupabaseManager.store_prediction] *)

Module SupabasePredictions.
Import Py Json.

(** [str(value)] for a value that is not a string. *)
Class PyText := { py_str : json -> string }.

Section Records.
Context `{JsonLib} `{PyText}.

(** The conversion at the head of [store_prediction]: a dictionary is kept,
    any other value goes through [json.loads], and when that raises (the
    text is not JSON, the value is not a text) the value is wrapped as
    [{'raw_prediction': str(value)}]. *)
Definition prediction_json_of (prediction_data : json) : json :=
  match prediction_data with
  | JObj _ => prediction_data
  | JStr text =>
      match json_loads text with
      | Some parsed => parsed
      | None => JObj [("raw_prediction", JStr text)]
      end
  | _ => JObj [("raw_prediction", JStr (py_str prediction_data))]
  end.

(** The confidence [store_prediction] extracts: the one inside
    [glucose_assessment] when that section has it, else the one at the top
    level, else [None]; [None] as a result is a raised exception. *)
Definition confidence_of (prediction_json : json) : option json :=
  match prediction_json with
  | JObj d =>
      nested <-
        (if dict_mem d "glucose_assessment" then
           g <- dict_get d "glucose_assessment" ;;
           py_in "confidence_score" g
         else Some false) ;;
      if nested then
        g <- dict_get d "glucose_assessment" ;; py_getitem g "confidence_score"
      else if dict_mem d "confidence_score" then dict_get d "confidence_score"
      else Some JNull
  | _ => Some JNull
  end.

(** The record [store_prediction] inserts; [None] when building it
    raises. *)
Definition prediction_record (session_id prediction_data : json)
  : option (list (string * json)) :=
  let prediction_json := prediction_json_of prediction_data in
  confidence_score <- confidence_of prediction_json ;;
  claude_response <- py_get prediction_json "raw_claude_response" JNull ;;
  Some [ ("session_id", session_id);
         ("prediction_result", prediction_json);
         ("confidence_score", confidence_score);
         ("claude_response", claude_response) ].

End Records.

End SupabasePredictions.

(** ** Storage agent: [app/agents/database_manager.py] *)

Module DatabaseManager.
Import Py Json.

(** The binding of a call that passes keyword arguments only: Python raises a
    [TypeError] when a keyword is not a parameter of the method or when a
    parameter without default gets no argument.  A parameter is listed with
    whether it has a default. *)
Definition binds (parameters : list (string * bool)) (keywords : list string)
  : bool :=
  forallb (fun k => in_list k (map fst parameters)) keywords
  && forallb (fun p => snd p || in_list (fst p) keywords) parameters.

(** The signatures of [SupabaseManager], without [self]. *)
Definition create_voice_session_parameters : list (string * bool) :=
  [ ("user_id", false); ("audio_data", false); ("context", false) ].

Definition store_prediction_parameters : list (string * bool) :=
  [ ("session_id", false); ("prediction_data", false) ].

Definition get_user_history_parameters : list (string * bool) :=
  [ ("user_id", false); ("limit", true) ].

Definition store_feedback_parameters : list (string * bool) :=
  [ ("session_id", false); ("actual_glucose", false);
    ("feedback_rating", false); ("comments", true) ].

(** The methods of the manager, once a call is bound; [None] when the
    method raises.  A method that stores a row returns what [from_dict] makes
    of the row that came back: an instance of the model, or Python's [None]
    when no row came back. *)
Class Manager := {
  (** user id, audio data, context *)
  create_voice_session :
    json -> json -> json -> option (option Models.VoiceSession.t);
  (** session id, prediction data *)
  store_prediction :
    json -> json -> option (option Models.GlucosePrediction.t);
  (** user id, limit: the list of history entries *)
  get_user_history : json -> json -> option json;
  (** session id, actual glucose, rating, comments: whether a [UserFeedback]
      instance came back *)
  store_feedback : json -> json -> json -> json -> option bool
}.

(** The dictionaries the agent returns. *)
Inductive reply :=
| Stored (session_id prediction_id voice_response_url : json)
| History (history : json)
| Feedback (feedback_id : json)
| MissingPrediction
| Error.

(** The value a keyword call passes for a parameter. *)
Definition argument (arguments : list (string * json)) (name : string) : json :=
  match dict_get arguments name with Some v => v | None => JNull end.

(** [instance.get('id') if instance else None] for a model instance, which
    is truthy and has no method [get]: the [AttributeError] is the [None] of
    the result. *)
Definition id_of_instance {T : Type} (instance : option T) : option json :=
  match instance with
  | Some _ => None
  | None => Some JNull
  end.

Section Agent.
Context `{Manager}.

(** [store_results]: the first call passes [session_id], [user_id],
    [embeddings] and [audio_quality] to [create_voice_session]; the manager
    has no [store_voice_response], so that call raises an
    [AttributeError]. *)
Definition store_results
    (session_id user_id embeddings prediction voice_response audio_quality : json)
  : reply :=
  let arguments :=
    [ ("session_id", session_id); ("user_id", user_id);
      ("embeddings", embeddings); ("audio_quality", audio_quality) ] in
  match
    (session <-
       (if binds create_voice_session_parameters (map fst arguments) then
          create_voice_session (argument arguments "user_id")
            (argument arguments "audio_data") (argument arguments "context")
        else None) ;;
     glucose <-
       (if truthy prediction then py_get prediction "glucose_prediction" JNull
        else Some prediction) ;;
     if truthy prediction && truthy glucose then
       stored_prediction <-
         (if binds store_prediction_parameters ["session_id"; "prediction_data"]
          then store_prediction session_id glucose
          else None) ;;
       _ <- (if truthy voice_response then None else Some JNull) ;;
       prediction_id <- id_of_instance stored_prediction ;;
       voice_response_url <-
         (if truthy voice_response then py_get voice_response "voice_response" JNull
          else Some JNull) ;;
       Some (Stored session_id prediction_id voice_response_url)
     else Some MissingPrediction)
  with
  | Some r => r
  | None => Error
  end.

(** [DatabaseAgent.get_user_history]. *)
Definition agent_get_user_history (user_id limit : json) : reply :=
  match
    (if binds get_user_history_parameters ["user_id"; "limit"] then
       get_user_history user_id limit
     else None)
  with
  | Some history => History history
  | None => Error
  end.

(** [DatabaseAgent.store_feedback]. *)
Definition agent_store_feedback
    (session_id actual_glucose feedback_rating comments : json) : reply :=
  match
    (feedback <-
       (if binds store_feedback_parameters
             ["session_id"; "actual_glucose"; "feedback_rating"; "comments"]
        then store_feedback session_id actual_glucose feedback_rating comments
        else None) ;;
     id_of_instance (if feedback : bool then Some tt else None))
  with
  | Some feedback_id => Feedback feedback_id
  | None => Error
  end.

End Agent.

End DatabaseManager.

(** ** Health context of the prompt: [build_analysis_prompt], lines 143-172 *)

Module PromptContext.
Import Py Json ContextService.

(** [if source.get(key): current = source.get(key)]. *)
Definition take (source : json) (key : string) (current : json) : option json :=
  v <- py_get source key JNull ;;
  Some (if truthy v then v else current).

(** The diabetes status, the meal timing and the symptoms the prompt is
    built from: the defaults, overridden by the user context, by its
    [responses] and by the direct entries, in that order; [None] when a
    [get] is applied to a value that is not a dictionary. *)
Definition health_context (user_responses : json) : option (json * json * json) :=
  let diabetes_status := JStr "Unknown" in
  let meal_timing := JStr "Unknown" in
  let symptoms := JArr [] in
  context <- py_get user_responses "user_context" JNull ;;
  '(diabetes_status, meal_timing, symptoms) <-
    (if truthy context then
       diabetes_status <- take context "diabetes_status" diabetes_status ;;
       meal_timing <- take context "meal_timing" meal_timing ;;
       symptoms <- take context "symptoms" symptoms ;;
       responses <- py_get context "responses" JNull ;;
       if truthy responses then
         diabetes_status <- take responses "diabetes_status" diabetes_status ;;
         meal_timing <- take responses "meal_timing" meal_timing ;;
         symptoms <- take responses "symptoms" symptoms ;;
         Some (diabetes_status, meal_timing, symptoms)
       else Some (diabetes_status, meal_timing, symptoms)
     else Some (diabetes_status, meal_timing, symptoms)) ;;
  diabetes_status <- take user_responses "diabetes_status" diabetes_status ;;
  meal_timing <- take user_responses "meal_timing" meal_timing ;;
  symptoms <- take user_responses "symptoms" symptoms ;;
  Some (diabetes_status, meal_timing, symptoms).

(** [determine_metabolic_phase(meal_timing)] for an arbitrary value: a list
    or a dictionary that is not empty is not hashable, and the lookup
    raises. *)
Definition metabolic_phase_of (meal_timing : json) : option metabolic_phase :=
  match meal_timing with
  | JNull => Some (determine_metabolic_phase None)
  | JStr s => Some (determine_metabolic_phase (Some s))
  | JArr (_ :: _) | JObj (_ :: _) => None
  | other =>
      Some (if truthy other then unknown_phase "unrecognized meal timing pattern"
            else unknown_phase "insufficient meal timing data")
  end.

End PromptContext.

(** ** Stand-ins for the vendor interfaces

    Small executable instances of the interfaces above, for running the
    definitions on concrete inputs.  The JSON reader covers objects, arrays,
    strings with the common escapes, decimal numbers without exponent (an
    integer when the literal has no dot) and the three literals; it keeps
    a decimal literal as it is written, where Python rounds it to the
    nearest float. *)

Module MiniJson.
Import Py Json.

Inductive token :=
| TLBrace | TRBrace | TLBracket | TRBracket | TColon | TComma
| TString (s : string)
| TInteger (n : Z)
| TNumber (q : Q)
| TTrue | TFalse | TNull.

(** The double quote character. *)
Definition dquote : ascii := "034"%char.

Definition is_space (c : ascii) : bool :=
  match c with
  | " "%char | "009"%char | "010"%char | "013"%char => true
  | _ => false
  end.

Definition digit_of (c : ascii) : option Z :=
  let n := Z.of_nat (nat_of_ascii c) in
  if (48 <=? n)%Z && (n <=? 57)%Z then Some (n - 48)%Z else None.

Fixpoint digits_value (s : string) (acc : Z) : option Z :=
  match s with
  | EmptyString => Some acc
  | String c s' => d <- digit_of c ;; digits_value s' (10 * acc + d)%Z
  end.

(** The text before the first dot, and the text after it if there is one. *)
Fixpoint split_dot (s : string) : string * option string :=
  match s with
  | EmptyString => (EmptyString, None)
  | String c s' =>
      if Ascii.eqb c "."%char then (EmptyString, Some s')
      else let '(a, b) := split_dot s' in (String c a, b)
  end.

Definition unsigned_number (w : string) : option Q :=
  let '(int_part, frac_part) := split_dot w in
  let well_formed :=
    match int_part with
    | EmptyString => false
    | String "0"%char (String _ _) => false
    | _ => true
    end in
  if well_formed then
    i <- digits_value int_part 0 ;;
    match frac_part with
    | None => Some (inject_Z i)
    | Some EmptyString => None
    | Some frac =>
        f <- digits_value frac 0 ;;
        let scale := (10 ^ Z.of_nat (String.length frac))%Z in
        Some (Qred (Qmake (i * scale + f) (Z.to_pos scale)))
    end
  else None.

Definition parse_number (w : string) : option Q :=
  match w with
  | String "-"%char body => q <- unsigned_number body ;; Some (Qred (Qopp q))
  | _ => unsigned_number w
  end.

(** A literal without a dot is an [int], one with a dot a [float]. *)
Definition is_integer_literal (w : string) : bool :=
  match snd (split_dot w) with
  | None => true
  | Some _ => false
  end.

Definition close_word (w : string) : option token :=
  if String.eqb w "true" then Some TTrue
  else if String.eqb w "false" then Some TFalse
  else if String.eqb w "null" then Some TNull
  else
    q <- parse_number w ;;
    Some (if is_integer_literal w then TInteger (Qnum q) else TNumber q).

Definition punctuation (c : ascii) : option token :=
  match c with
  | "{"%char => Some TLBrace
  | "}"%char => Some TRBrace
  | "["%char => Some TLBracket
  | "]"%char => Some TRBracket
  | ":"%char => Some TColon
  | ","%char => Some TComma
  | _ => None
  end.

Definition unescape (c : ascii) : option ascii :=
  match c with
  | "\"%char => Some "\"%char
  | "/"%char => Some "/"%char
  | "n"%char => Some "010"%char
  | "t"%char => Some "009"%char
  | "r"%char => Some "013"%char
  | _ => if Ascii.eqb c dquote then Some dquote else None
  end.

Inductive mode :=
| Idle
| Word (w : string)
| Str (acc : string)
| Esc (acc : string).

Definition snoc (s : string) (c : ascii) : string :=
  (s ++ String c EmptyString)%string.

Fixpoint lex (m : mode) (s : string) : option (list token) :=
  match s with
  | EmptyString =>
      match m with
      | Idle => Some []
      | Word w => t <- close_word w ;; Some [t]
      | Str _ | Esc _ => None
      end
  | String c s' =>
      match m with
      | Str acc =>
          if Ascii.eqb c dquote then
            rest <- lex Idle s' ;; Some (TString acc :: rest)
          else if Ascii.eqb c "\"%char then lex (Esc acc) s'
          else lex (Str (snoc acc c)) s'
      | Esc acc => c' <- unescape c ;; lex (Str (snoc acc c')) s'
      | Idle =>
          if is_space c then lex Idle s'
          else if Ascii.eqb c dquote then lex (Str EmptyString) s'
          else match punctuation c with
               | Some t => rest <- lex Idle s' ;; Some (t :: rest)
               | None => lex (Word (String c EmptyString)) s'
               end
      | Word w =>
          if is_space c then
            t <- close_word w ;; rest <- lex Idle s' ;; Some (t :: rest)
          else if Ascii.eqb c dquote then None
          else match punctuation c with
               | Some t' =>
                   t <- close_word w ;; rest <- lex Idle s' ;;
                   Some (t :: t' :: rest)
               | None => lex (Word (snoc w c)) s'
               end
      end
  end.

Inductive goal :=
| GValue
| GElements (acc : list json)
| GMembers (acc : list (string * json)).

Fixpoint parse (fuel : nat) (g : goal) (ts : list token)
  : option (json * list token) :=
  match fuel with
  | O => None
  | S fuel =>
      match g with
      | GValue =>
          match ts with
          | TNull :: r => Some (JNull, r)
          | TTrue :: r => Some (JBool true, r)
          | TFalse :: r => Some (JBool false, r)
          | TInteger n :: r => Some (JInt n, r)
          | TNumber q :: r => Some (JNum q, r)
          | TString s :: r => Some (JStr s, r)
          | TLBracket :: TRBracket :: r => Some (JArr [], r)
          | TLBracket :: r => parse fuel (GElements []) r
          | TLBrace :: TRBrace :: r => Some (JObj [], r)
          | TLBrace :: r => parse fuel (GMembers []) r
          | _ => None
          end
      | GElements acc =>
          '(v, r) <- parse fuel GValue ts ;;
          match r with
          | TComma :: r' => parse fuel (GElements (acc ++ [v])) r'
          | TRBracket :: r' => Some (JArr (acc ++ [v]), r')
          | _ => None
          end
      | GMembers acc =>
          match ts with
          | TString k :: TColon :: r =>
              '(v, r) <- parse fuel GValue r ;;
              match r with
              | TComma :: r' => parse fuel (GMembers (dict_set acc k v)) r'
              | TRBrace :: r' => Some (JObj (dict_set acc k v), r')
              | _ => None
              end
          | _ => None
          end
      end
  end.

(** One JSON value spanning the whole text. *)
Definition loads (s : string) : option json :=
  ts <- lex Idle s ;;
  '(v, r) <- parse (2 * List.length ts + 2) GValue ts ;;
  match r with
  | [] => Some v
  | _ => None
  end.

#[export] Instance json_lib : JsonLib := {| json_loads := loads |}.

(** A string literal of the text: the quoted [s]. *)
Definition quoted (s : string) : string :=
  (String dquote s ++ String dquote EmptyString)%string.

End MiniJson.

Module Standins.
Import Py Numeric Json.

(** Exact rational arithmetic in place of floats: [None] stands for a NaN
    or an infinity, and the decimal logarithm is rounded down to an
    integer. *)
Definition lift2 (op : Q -> Q -> Q) (a b : option Q) : option Q :=
  x <- a ;; y <- b ;; Some (Qred (op x y)).

(** The number of times [n >= 1] can be divided by ten before it drops
    below ten. *)
Fixpoint floor_log10 (fuel : nat) (n : Z) : Z :=
  match fuel with
  | O => 0%Z
  | S fuel => if (n <? 10)%Z then 0%Z else (1 + floor_log10 fuel (n / 10))%Z
  end.

(** The least [k] with [b <= a * 10 ^ k], for [0 < a]. *)
Fixpoint ceil_log10 (fuel : nat) (a b : Z) : Z :=
  match fuel with
  | O => 0%Z
  | S fuel => if (b <=? a)%Z then 0%Z else (1 + ceil_log10 fuel (10 * a) b)%Z
  end.

Definition log10_down (x : option Q) : option Q :=
  q <- x ;;
  let a := Qnum q in
  let b := Zpos (Qden q) in
  if (a <=? 0)%Z then None
  else if (b <=? a)%Z then
    Some (inject_Z (floor_log10 (S (Z.to_nat (Z.log2 a))) (a / b)))
  else
    Some (inject_Z (- ceil_log10 (S (Z.to_nat (Z.log2 b))) a b)).

Definition mean (xs : list (option Q)) : option Q :=
  match xs with
  | [] => None
  | _ =>
      total <- fold_left (lift2 Qplus) xs (Some 0%Q) ;;
      Some (Qred (total / inject_Z (Z.of_nat (List.length xs))))
  end.

Definition variance (xs : list (option Q)) : option Q :=
  let m := mean xs in
  mean (map (fun x => let d := lift2 Qminus x m in lift2 Qmult d d) xs).

#[export] Instance exact_float : FloatArith (option Q) :=
  {| f_lit := fun q => Some q;
     f_sub := lift2 Qminus;
     f_mul := lift2 Qmult;
     f_div := fun a b =>
       x <- a ;; y <- b ;;
       if Qeq_bool y 0 then None else Some (Qred (x / y));
     f_log10 := log10_down;
     f_gtb := fun a b =>
       match a, b with
       | Some x, Some y => negb (Qle_bool x y)
       | _, _ => false
       end;
     f_int := fun a => x <- a ;; Some (Z.quot (Qnum x) (Zpos (Qden x)));
     np_mean := mean;
     np_var := variance |}.

(** A signal-processing stand-in with one frame per sample: the centroid
    sits at an eighth and the bandwidth at a tenth of the sample rate, and
    every routine raises on an empty waveform. *)
Definition rows (n : nat) (value : Q) (w : list (option Q))
  : option (list (list (option Q))) :=
  match w with
  | [] => None
  | _ => Some (repeat (map (fun _ => Some value) w) n)
  end.

#[export] Instance flat_librosa : Librosa (option Q) :=
  {| spectral_centroid := fun w sr => rows 1 (Qred (inject_Z sr / 8)) w;
     spectral_bandwidth := fun w sr => rows 1 (Qred (inject_Z sr / 10)) w;
     spectral_rolloff := fun w sr => rows 1 (Qred (inject_Z sr / 4)) w;
     spectral_contrast := fun w sr => rows 7 1%Q w;
     chroma_stft := fun w sr => rows 12 (1 # 12) w;
     mfcc := fun w sr n => rows n 0%Q w;
     resample := fun w _ _ => Some w;
     get_duration := fun w sr =>
       if (sr <=? 0)%Z then None
       else Some (Some (Qred (inject_Z (Z.of_nat (List.length w)) / inject_Z sr))) |}.

(** A speech model whose time-averaged hidden state has 768 entries, and
    one that cannot be loaded. *)
Definition loaded_model : EmbeddingExtractor.SpeechModel (option Q) unit unit :=
  {| EmbeddingExtractor.model_from_pretrained := Some tt;
     EmbeddingExtractor.processor_from_pretrained := Some tt;
     EmbeddingExtractor.hidden_state_mean := fun _ _ w _ =>
       Some (repeat (np_mean w) 768) |}.

Definition missing_model : EmbeddingExtractor.SpeechModel (option Q) unit unit :=
  {| EmbeddingExtractor.model_from_pretrained := None;
     EmbeddingExtractor.processor_from_pretrained := None;
     EmbeddingExtractor.hidden_state_mean := fun _ _ _ _ => None |}.

(** A reasoning service that answers every request with [reply], where
    [None] is a failed request. *)
Definition client_with (reply : option string)
  : AnthropicService.AnthropicClient :=
  {| AnthropicService.messages_create := fun _ _ _ _ => reply;
     AnthropicService.CLAUDE_ANALYSIS_PROMPT := "analysis instructions";
     AnthropicService.voice_data_prompt := fun _ _ => Some "voice analysis request" |}.

(** A runtime whose [await] hands the value over when [awaitable]. *)
Definition runtime_with (awaitable : bool) : ClaudeInference.AgentRuntime :=
  {| ClaudeInference.build_analysis_prompt := fun _ _ _ =>
       Some ("system instructions", "analysis request");
     ClaudeInference.plain_value_awaitable := awaitable |}.

(** A transport whose every request is answered with [status]. *)
Definition transport_with (status : Z) : ElevenLabsService.Transport :=
  {| ElevenLabsService.requests_post := fun _ _ _ _ _ => Some (status, "audio");
     ElevenLabsService.write_temp_file := fun _ => Some "/tmp/voice.mp3";
     ElevenLabsService.timestamp := "20250101120000" |}.

(** A transport whose every request raises. *)
Definition broken_transport : ElevenLabsService.Transport :=
  {| ElevenLabsService.requests_post := fun _ _ _ _ _ => None;
     ElevenLabsService.write_temp_file := fun _ => None;
     ElevenLabsService.timestamp := "20250101120000" |}.

(** A voice service whose call raises. *)
Definition raising_voice_service : VoiceSynthesis.VoiceService :=
  {| VoiceSynthesis.service_text_to_speech := fun _ _ _ _ _ =>
       VoiceSynthesis.Raised;
     VoiceSynthesis.now_timestamp := "20250101120000" |}.

(** Script templates reduced to their opening words. *)
#[export] Instance opening_words : VoiceSynthesis.ScriptText :=
  {| VoiceSynthesis.urgent_script := fun _ _ _ _ => "Attention: Your voice analysis indicates";
     VoiceSynthesis.informative_script := fun _ _ _ _ => "Based on your voice analysis,";
     VoiceSynthesis.hedged_script := fun _ _ _ => "I've analyzed your voice sample," |}.

End Standins.

(** Concrete inputs for the worked instances. *)

Module Instances.
Import Py Numeric Json ContextService AudioProcessor SupabaseService
       EmbeddingExtractor ClaudeInference VoiceSynthesis MiniJson Standins.

(** Two samples at 16 kHz. *)
Definition two_samples : processed_audio (option Q) :=
  {| waveform := [Some 1%Q; Some (-1)%Q];
     sample_rate := 16000;
     duration := Some (1 # 8000)%Q |}.

(** The reply of the parsing example: a JSON object between two words. *)
Definition noisy_reply : string :=
  ("noise {" ++ quoted "glucose_assessment" ++ ":{"
     ++ quoted "primary_estimate" ++ ":" ++ quoted "elevated"
     ++ "}} trailing")%string.

(** A reply whose [glucose_assessment] is a string. *)
Definition misshapen_reply : string :=
  ("{" ++ quoted "glucose_assessment" ++ ":" ++ quoted "elevated" ++ "}")%string.

(** An assessment of critical risk and low confidence. *)
Definition critical_assessment : json :=
  JObj [ ("glucose_assessment", JObj
           [ ("primary_estimate", JStr "low");
             ("confidence_score", JNum (2 # 10));
             ("risk_level", JStr "critical") ]);
         ("analysis_details", JObj []);
         ("clinical_insights", JObj []);
         ("limitations", JObj []) ].




End Instances.

(** Stand-ins for the orchestrator and the storage code. *)

Module MoreStandins.
Import Py Json.

(** A world whose draws are fixed, whose context text needs a dictionary and
    whose percentage is the truncated exact product. *)
#[export] Instance fixed_world : PortiaService.PortiaWorld :=
  {| PortiaService.drawn_quality_metrics :=
       JObj [ ("snr", JNum 25); ("duration", JNum 15);
              ("clarity", JInt 85); ("spectral_quality", JInt 90) ];
     PortiaService.random_entry := fun _ => 0%Q;
     PortiaService.formatted_context := fun user_context _ _ =>
       match user_context with
       | JObj _ => Some "User Health Context"
       | _ => None
       end;
     PortiaService.percent_of := fun v =>
       match v with
       | JInt n => Some (n * 100)%Z
       | JNum q => Some (Z.quot (Qnum (q * 100)) (Zpos (Qden (q * 100))))
       | _ => None
       end;
     PortiaService.response_text := fun _ _ _ _ _ =>
       "Based on my analysis of your voice patterns" |}.

(** [str] reduced to the name of the type. *)
#[export] Instance type_names : SupabasePredictions.PyText :=
  {| SupabasePredictions.py_str := fun v =>
       match v with
       | JNull => "None"
       | JBool _ => "bool"
       | JInt _ => "int"
       | JNum _ => "float"
       | JStr s => s
       | JArr _ => "list"
       | JObj _ => "dict"
       end |}.

(** One draw of an identifier and a time. *)
Definition first_draw : Models.draw :=
  {| Models.uuid4 := "0b7e1f0c-5a55-4d0e-9d3c-2f1f4c1d9a10";
     Models.now := JStr "2025-01-01T12:00:00" |}.

Definition second_draw : Models.draw :=
  {| Models.uuid4 := "7c1d2e3f-0000-4a4a-8b8b-123456789abc";
     Models.now := JStr "2025-01-02T08:30:00" |}.

(** A reply whose [glucose_assessment] is null. *)
Definition null_assessment_reply : string :=
  ("{" ++ MiniJson.quoted "glucose_assessment" ++ ":null}")%string.

(** User responses with a status in the user context and another one given
    directly. *)
Definition layered_responses : list (string * json) :=
  [ ("user_context", JObj [ ("diabetes_status", JStr "Type 1 diabetes");
                            ("symptoms", JArr [JStr "Blurred vision"]) ]);
    ("diabetes_status", JStr "Gestational diabetes") ].

End MoreStandins.

(** * Properties *)

(** ** Context scorer *)

Section ContextScorerFacts.
Import Py ContextService.

Lemma sum_ones_length {A : Type} (p : A -> bool) (xs : list A) :
  sum_ones p xs = List.length (filter p xs).
Proof.
  unfold sum_ones.
  induction (filter p xs) as [| x l IH]; simpl; [reflexivity | now rewrite IH].
Qed.

Lemma filter_none {A : Type} (p : A -> bool) (xs : list A) :
  (forall x, In x xs -> p x = false) -> filter p xs = [].
Proof.
  intros Hp. transitivity (filter (fun _ : A => false) xs).
  - apply filter_ext_in. exact Hp.
  - apply filter_false.
Qed.

Lemma in_list_In (s : string) (xs : list string) :
  in_list s xs = true <-> In s xs.
Proof.
  unfold in_list. rewrite existsb_exists. split.
  - intros [x [Hin Heq]]. apply String.eqb_eq in Heq. now subst.
  - intros Hin. exists s. split; [assumption | apply String.eqb_refl].
Qed.

Lemma dict_get_not_key {V : Type} (d : list (string * V)) (k : string) :
  ~ In k (map fst d) -> dict_get d k = None.
Proof.
  induction d as [| [k' v] d IH]; simpl; intros Hk; [reflexivity |].
  destruct (String.eqb_spec k k') as [-> | Hne].
  - exfalso. apply Hk. now left.
  - apply IH. intros Hin. apply Hk. now right.
Qed.

Lemma critical_window_key (s : string) (p : metabolic_phase) :
  dict_get phases s = Some p -> is_critical_window p = true ->
  s = "1-2 hours ago".
Proof.
  unfold phases. simpl.
  repeat match goal with
         | |- context [String.eqb s ?k] =>
             destruct (String.eqb_spec s k) as [-> | ?]
         end;
    intros Hget Hcrit; try reflexivity;
    try (injection Hget as <-; discriminate Hcrit);
    discriminate Hget.
Qed.

(** C5. The meal-timing scorer is a total lookup over a table of seven
    entries: [None], the empty string and every string that is not a key of
    the table give phase "Unknown" with [is_critical_window] false;
    "1-2 hours ago" gives phase "Peak Postprandial" with
    [is_critical_window] true, and it is the only input whose
    [is_critical_window] is true. *)
Theorem determine_metabolic_phase_table :
  List.length phases = 7
  /\ NoDup (map fst phases)
  /\ (forall m, m = None \/ m = Some "" ->
        phase (determine_metabolic_phase m) = "Unknown"
        /\ is_critical_window (determine_metabolic_phase m) = false)
  /\ (forall s, ~ In s (map fst phases) ->
        phase (determine_metabolic_phase (Some s)) = "Unknown"
        /\ is_critical_window (determine_metabolic_phase (Some s)) = false)
  /\ phase (determine_metabolic_phase (Some "1-2 hours ago")) = "Peak Postprandial"
  /\ (forall m, is_critical_window (determine_metabolic_phase m) = true
                <-> m = Some "1-2 hours ago").
Proof.
  split; [reflexivity |].
  split.
  { unfold phases; simpl.
    repeat (constructor; [simpl; intuition discriminate |]).
    constructor. }
  split; [intros m [-> | ->]; split; reflexivity |].
  split.
  { intros s Hs. apply dict_get_not_key in Hs.
    destruct s as [| c s]; [split; reflexivity |].
    unfold determine_metabolic_phase. rewrite Hs. split; reflexivity. }
  split; [reflexivity |].
  intros m. split; [| intros ->; reflexivity].
  destruct m as [s |]; [| discriminate].
  destruct s as [| c s]; [discriminate |].
  unfold determine_metabolic_phase.
  destruct (dict_get phases (String c s)) as [p |] eqn:Hget; [| discriminate].
  intros Hcrit. f_equal. exact (critical_window_key _ _ Hget Hcrit).
Qed.

Lemma urgency_by_total (n : nat) :
  (if (3 <=? n)%nat then "High" else if (n =? 2)%nat then "Moderate" else "Low")
  = urgency_of_total n.
Proof. destruct n as [| [| [| n]]]; reflexivity. Qed.

(** C4. The symptom-cluster scorer: a missing or empty list is
    Asymptomatic / Neutral / Low; otherwise the direction compares the
    number of hyper-group entries with the number of hypo-group entries
    (Mixed on a tie), and the urgency is Low for at most one entry,
    Moderate for two, High for three or more, and High whenever the
    confusion symptom is in the list.  The list of shakiness and confusion
    is Hypoglycemic with urgency High. *)
Theorem analyze_symptom_constellation_spec (symptoms : option (list string)) :
  let r := analyze_symptom_constellation symptoms in
  match symptoms with
  | None | Some [] =>
      r = {| cluster_type := "Asymptomatic"; direction := "Neutral"; urgency := "Low" |}
  | Some l =>
      let hyper := List.length (filter (fun s => in_list s hyperglycemia_symptoms) l) in
      let hypo := List.length (filter (fun s => in_list s hypoglycemia_symptoms) l) in
      direction r =
        (if (hypo <? hyper)%nat then "Hyperglycemic"
         else if (hyper <? hypo)%nat then "Hypoglycemic" else "Mixed")
      /\ urgency r =
        (if in_list "Confusion or difficulty concentrating" l then "High"
         else urgency_of_total (List.length l))
  end
  /\ direction (analyze_symptom_constellation
       (Some ["Shakiness or tremors"; "Confusion or difficulty concentrating"]))
     = "Hypoglycemic"
  /\ urgency (analyze_symptom_constellation
       (Some ["Shakiness or tremors"; "Confusion or difficulty concentrating"]))
     = "High".
Proof.
  split; [| split; reflexivity].
  destruct symptoms as [[| s l] |]; try reflexivity.
  cbv zeta. unfold analyze_symptom_constellation.
  rewrite !sum_ones_length, urgency_by_total.
  split;
    (destruct (_ <? _)%nat; [reflexivity |];
     destruct (_ <? _)%nat; reflexivity).
Qed.

(** C10. A non-empty list without any hyper-group or hypo-group entry is a
    "Mixed Symptom Cluster" with direction "Mixed", never Asymptomatic or
    Neutral, and every such list of the same length gets the same record,
    whatever the number of nonspecific entries in it. *)
Theorem nonspecific_only_is_mixed (l : list string) :
  l <> [] ->
  (forall s, In s l ->
     ~ In s hyperglycemia_symptoms /\ ~ In s hypoglycemia_symptoms) ->
  let r := analyze_symptom_constellation (Some l) in
  direction r = "Mixed"
  /\ cluster_type r = "Mixed Symptom Cluster"
  /\ direction r <> "Neutral"
  /\ cluster_type r <> "Asymptomatic"
  /\ urgency r = urgency_of_total (List.length l)
  /\ (forall l',
        List.length l' = List.length l ->
        (forall s, In s l' ->
           ~ In s hyperglycemia_symptoms /\ ~ In s hypoglycemia_symptoms) ->
        analyze_symptom_constellation (Some l') = r).
Proof.
  assert (Hshape : forall l0 : list string, l0 <> [] ->
    (forall s, In s l0 ->
       ~ In s hyperglycemia_symptoms /\ ~ In s hypoglycemia_symptoms) ->
    analyze_symptom_constellation (Some l0)
    = {| cluster_type := "Mixed Symptom Cluster"; direction := "Mixed";
         urgency := urgency_of_total (List.length l0) |}).
  { intros l0 Hne Hout.
    assert (Hhyper : filter (fun s => in_list s hyperglycemia_symptoms) l0 = []).
    { apply filter_none. intros s Hs.
      destruct (in_list s hyperglycemia_symptoms) eqn:E; [| reflexivity].
      apply in_list_In in E. destruct (Hout s Hs) as [H _]. contradiction. }
    assert (Hhypo : filter (fun s => in_list s hypoglycemia_symptoms) l0 = []).
    { apply filter_none. intros s Hs.
      destruct (in_list s hypoglycemia_symptoms) eqn:E; [| reflexivity].
      apply in_list_In in E. destruct (Hout s Hs) as [_ H]. contradiction. }
    assert (Hconf : in_list "Confusion or difficulty concentrating" l0 = false).
    { destruct (in_list _ l0) eqn:E; [| reflexivity].
      apply in_list_In in E. destruct (Hout _ E) as [_ H].
      exfalso. apply H. simpl. tauto. }
    destruct l0 as [| s0 l0]; [contradiction |].
    unfold analyze_symptom_constellation.
    rewrite !sum_ones_length, urgency_by_total, Hhyper, Hhypo, Hconf.
    reflexivity. }
  intros Hne Hout r.
  subst r. rewrite (Hshape l Hne Hout). cbn [direction cluster_type urgency].
  split; [reflexivity |]. split; [reflexivity |].
  split; [discriminate |]. split; [discriminate |]. split; [reflexivity |].
  intros l' Hlen Hout'.
  rewrite Hshape; [now rewrite Hlen | | assumption].
  intros ->. destruct l; [contradiction | discriminate].
Qed.

End ContextScorerFacts.

(** ** Embedding extractor *)

Section EmbeddingFacts.
Import Py Numeric AudioProcessor EmbeddingExtractor.
Context {F M P : Type} `{FloatArith F} `{Librosa F} `{SpeechModel F M P}.

Lemma ensure_512_length (raw : list F) :
  List.length (ensure_512 raw) = 512.
Proof.
  unfold ensure_512.
  destruct (Nat.ltb_spec 512 (List.length raw)) as [Hlong | Hle].
  - rewrite length_firstn. lia.
  - destruct (Nat.ltb_spec (List.length raw) 512) as [Hshort | Hge].
    + rewrite length_app, repeat_length. lia.
    + lia.
Qed.

Lemma ensure_512_truncates (raw : list F) :
  512 < List.length raw -> ensure_512 raw = firstn 512 raw.
Proof.
  intros Hlong. unfold ensure_512.
  destruct (Nat.ltb_spec 512 (List.length raw)); [reflexivity | lia].
Qed.

Lemma ensure_512_pads (raw : list F) :
  List.length raw <= 512 ->
  ensure_512 raw = raw ++ repeat (f_lit 0) (512 - List.length raw).
Proof.
  intros Hle. unfold ensure_512.
  destruct (Nat.ltb_spec 512 (List.length raw)); [lia |].
  destruct (Nat.ltb_spec (List.length raw) 512) as [Hshort | Hge];
    [reflexivity |].
  replace (512 - List.length raw) with 0 by lia.
  symmetry. apply app_nil_r.
Qed.

Lemma wav2vec_path_raw (m : M) (p : P) (w : list F) (sr : Z) (e : list F) :
  _extract_with_wav2vec m p w sr = Some e ->
  exists w' sr' raw,
    hidden_state_mean m p w' sr' = Some raw /\ e = ensure_512 raw.
Proof.
  unfold _extract_with_wav2vec.
  destruct (sr =? 16000)%Z; cbn [bind].
  - destruct (hidden_state_mean m p w sr) as [raw |] eqn:Hraw; cbn [bind];
      [| discriminate].
    intros [= <-]. now exists w, sr, raw.
  - destruct (resample w sr 16000) as [w' |]; cbn [bind]; [| discriminate].
    destruct (hidden_state_mean m p w' 16000) as [raw |] eqn:Hraw;
      cbn [bind]; [| discriminate].
    intros [= <-]. now exists w', 16000%Z, raw.
Qed.

Lemma fallback_path_raw (w : list F) (sr : Z) (e : list F) :
  _extract_fallback_features w sr = Some e ->
  exists mf sc sb ro co ch,
    mfcc w sr 40 = Some mf /\ spectral_centroid w sr = Some sc
    /\ spectral_bandwidth w sr = Some sb /\ spectral_rolloff w sr = Some ro
    /\ spectral_contrast w sr = Some co /\ chroma_stft w sr = Some ch
    /\ e = ensure_512 (mean_axis1 mf ++ mean_axis1 sc ++ mean_axis1 sb
                         ++ mean_axis1 ro ++ mean_axis1 co ++ mean_axis1 ch).
Proof.
  unfold _extract_fallback_features.
  destruct (mfcc w sr 40) as [mf |]; cbn [bind]; [| discriminate].
  destruct (spectral_centroid w sr) as [sc |]; cbn [bind]; [| discriminate].
  destruct (spectral_bandwidth w sr) as [sb |]; cbn [bind]; [| discriminate].
  destruct (spectral_rolloff w sr) as [ro |]; cbn [bind]; [| discriminate].
  destruct (spectral_contrast w sr) as [co |]; cbn [bind]; [| discriminate].
  destruct (chroma_stft w sr) as [ch |]; cbn [bind]; [| discriminate].
  intros [= <-]. exists mf, sc, sb, ro, co, ch. repeat split; reflexivity.
Qed.

Lemma extract_embeddings_path (self : agent M P) (pa : processed_audio F)
    (e : list F) :
  snd (extract_embeddings self pa) = Some e ->
  (exists m p, _extract_with_wav2vec m p (waveform pa) (sample_rate pa) = Some e)
  \/ _extract_fallback_features (waveform pa) (sample_rate pa) = Some e.
Proof.
  unfold extract_embeddings. cbv zeta.
  destruct (model (_load_model self)) as [m |]; [| now right].
  destruct (processor (_load_model self)) as [p |]; [| now right].
  destruct (_extract_with_wav2vec m p (waveform pa) (sample_rate pa))
    as [e' |] eqn:Hpath; cbn [snd]; [| now right].
  intros [= <-]. left. now exists m, p.
Qed.

Lemma ensure_512_closed_form (raw : list F) :
  ensure_512 raw
  = firstn 512 raw ++ repeat (f_lit 0) (512 - List.length raw).
Proof.
  destruct (Nat.le_gt_cases (List.length raw) 512) as [Hle | Hlong].
  - rewrite (ensure_512_pads raw Hle), (firstn_all2 raw Hle). reflexivity.
  - rewrite (ensure_512_truncates raw Hlong).
    replace (512 - List.length raw) with 0 by lia.
    symmetry. apply app_nil_r.
Qed.

Lemma wav2vec_path_returns (m : M) (p : P) (w w16 raw : list F) (sr : Z) :
  (sr = 16000%Z /\ w16 = w)
  \/ (sr <> 16000%Z /\ resample w sr 16000 = Some w16) ->
  hidden_state_mean m p w16 16000 = Some raw ->
  _extract_with_wav2vec m p w sr = Some (ensure_512 raw).
Proof.
  unfold _extract_with_wav2vec.
  intros [[-> ->] | [Hsr Hres]] Hraw.
  - cbn [Z.eqb Pos.eqb bind]. rewrite Hraw. reflexivity.
  - destruct (Z.eqb_spec sr 16000) as [Heq | _]; [contradiction |].
    rewrite Hres. cbn [bind]. rewrite Hraw. reflexivity.
Qed.

Lemma wav2vec_path_inverts (m : M) (p : P) (w : list F) (sr : Z) (e : list F) :
  _extract_with_wav2vec m p w sr = Some e ->
  exists w16 raw,
    ((sr = 16000%Z /\ w16 = w)
     \/ (sr <> 16000%Z /\ resample w sr 16000 = Some w16))
    /\ hidden_state_mean m p w16 16000 = Some raw
    /\ e = ensure_512 raw.
Proof.
  unfold _extract_with_wav2vec.
  destruct (Z.eqb_spec sr 16000) as [-> | Hsr]; cbn [bind].
  - destruct (hidden_state_mean m p w 16000) as [raw |] eqn:Hraw; cbn [bind];
      [| discriminate].
    intros [= <-]. exists w, raw. auto.
  - destruct (resample w sr 16000) as [w16 |] eqn:Hres; cbn [bind];
      [| discriminate].
    destruct (hidden_state_mean m p w16 16000) as [raw |] eqn:Hraw;
      cbn [bind]; [| discriminate].
    intros [= <-]. exists w16, raw. auto.
Qed.

Lemma fallback_path_returns (w : list F) (sr : Z)
    (mf sc sb ro co ch : list (list F)) :
  mfcc w sr 40 = Some mf -> spectral_centroid w sr = Some sc ->
  spectral_bandwidth w sr = Some sb -> spectral_rolloff w sr = Some ro ->
  spectral_contrast w sr = Some co -> chroma_stft w sr = Some ch ->
  _extract_fallback_features w sr
  = Some (ensure_512 (mean_axis1 mf ++ mean_axis1 sc ++ mean_axis1 sb
                        ++ mean_axis1 ro ++ mean_axis1 co ++ mean_axis1 ch)).
Proof.
  intros Hmf Hsc Hsb Hro Hco Hch. unfold _extract_fallback_features.
  rewrite Hmf. cbn [bind]. rewrite Hsc. cbn [bind]. rewrite Hsb. cbn [bind].
  rewrite Hro. cbn [bind]. rewrite Hco. cbn [bind]. rewrite Hch. reflexivity.
Qed.

(** C1. Both extraction paths return their raw vector cut to its first 512
    entries when it is longer and padded with zeros at the end when it is
    shorter, so that a returned vector has exactly 512 entries.  The model
    path returns exactly when the resampling to 16 kHz (made when the
    sample rate is another one) and the model return, and then the fitted
    time average of the hidden state; the fallback path returns exactly
    when the six feature routines return, and then the fitted concatenation
    of the row means of their matrices, in the order of the code.
    [extract_embeddings] returns the vector of the model path when a model
    and a processor are set and that path returns, and otherwise whatever
    the fallback path does. *)
Theorem embedding_has_512_entries (self : agent M P) (pa : processed_audio F) :
  (forall raw : list F,
      List.length (ensure_512 raw) = 512
      /\ (512 < List.length raw -> ensure_512 raw = firstn 512 raw)
      /\ (List.length raw <= 512 ->
          ensure_512 raw = raw ++ repeat (f_lit 0) (512 - List.length raw)))
  /\ (forall m p e,
        _extract_with_wav2vec m p (waveform pa) (sample_rate pa) = Some e
        <-> exists w16 raw,
              ((sample_rate pa = 16000%Z /\ w16 = waveform pa)
               \/ (sample_rate pa <> 16000%Z
                   /\ resample (waveform pa) (sample_rate pa) 16000 = Some w16))
              /\ hidden_state_mean m p w16 16000 = Some raw
              /\ e = firstn 512 raw
                       ++ repeat (f_lit 0) (512 - List.length raw))
  /\ (forall e,
        _extract_fallback_features (waveform pa) (sample_rate pa) = Some e
        <-> exists mf sc sb ro co ch,
              mfcc (waveform pa) (sample_rate pa) 40 = Some mf
              /\ spectral_centroid (waveform pa) (sample_rate pa) = Some sc
              /\ spectral_bandwidth (waveform pa) (sample_rate pa) = Some sb
              /\ spectral_rolloff (waveform pa) (sample_rate pa) = Some ro
              /\ spectral_contrast (waveform pa) (sample_rate pa) = Some co
              /\ chroma_stft (waveform pa) (sample_rate pa) = Some ch
              /\ let raw := map np_mean mf ++ map np_mean sc ++ map np_mean sb
                              ++ map np_mean ro ++ map np_mean co
                              ++ map np_mean ch in
                 e = firstn 512 raw
                       ++ repeat (f_lit 0) (512 - List.length raw))
  /\ (forall m p e,
        _extract_with_wav2vec m p (waveform pa) (sample_rate pa) = Some e ->
        List.length e = 512)
  /\ (forall e,
        _extract_fallback_features (waveform pa) (sample_rate pa) = Some e ->
        List.length e = 512)
  /\ (forall e, snd (extract_embeddings self pa) = Some e -> List.length e = 512)
  /\ (forall m p e,
        model (_load_model self) = Some m ->
        processor (_load_model self) = Some p ->
        _extract_with_wav2vec m p (waveform pa) (sample_rate pa) = Some e ->
        snd (extract_embeddings self pa) = Some e)
  /\ (model (_load_model self) = None \/ processor (_load_model self) = None
      \/ (exists m p,
            model (_load_model self) = Some m
            /\ processor (_load_model self) = Some p
            /\ _extract_with_wav2vec m p (waveform pa) (sample_rate pa) = None) ->
      snd (extract_embeddings self pa)
      = _extract_fallback_features (waveform pa) (sample_rate pa))
  /\ (_extract_fallback_features (waveform pa) (sample_rate pa) <> None ->
      snd (extract_embeddings self pa) <> None).
Proof.
  split.
  { intros raw. split; [apply ensure_512_length |].
    split; [apply ensure_512_truncates | apply ensure_512_pads]. }
  split.
  { intros m p e. split.
    - intros He. destruct (wav2vec_path_inverts _ _ _ _ _ He)
        as (w16 & raw & Hw & Hraw & ->).
      exists w16, raw. split; [exact Hw |]. split; [exact Hraw |].
      apply ensure_512_closed_form.
    - intros (w16 & raw & Hw & Hraw & ->).
      rewrite <- ensure_512_closed_form.
      exact (wav2vec_path_returns _ _ _ _ _ _ Hw Hraw). }
  split.
  { intros e. split.
    - intros He. destruct (fallback_path_raw _ _ _ He)
        as (mf & sc & sb & ro & co & ch & Hmf & Hsc & Hsb & Hro & Hco & Hch & ->).
      exists mf, sc, sb, ro, co, ch.
      repeat (split; [assumption |]).
      cbv zeta. apply ensure_512_closed_form.
    - intros (mf & sc & sb & ro & co & ch
              & Hmf & Hsc & Hsb & Hro & Hco & Hch & He).
      cbv zeta in He. rewrite <- ensure_512_closed_form in He. subst e.
      exact (fallback_path_returns _ _ _ _ _ _ _ _ Hmf Hsc Hsb Hro Hco Hch). }
  split.
  { intros m p e He. destruct (wav2vec_path_raw _ _ _ _ _ He)
      as (w & sr & raw & _ & ->).
    apply ensure_512_length. }
  split.
  { intros e He. destruct (fallback_path_raw _ _ _ He)
      as (mf & sc & sb & ro & co & ch & _ & _ & _ & _ & _ & _ & ->).
    apply ensure_512_length. }
  split.
  { intros e He. destruct (extract_embeddings_path _ _ _ He) as [(m & p & Hp) | Hf].
    - destruct (wav2vec_path_raw _ _ _ _ _ Hp) as (w & sr & raw & _ & ->).
      apply ensure_512_length.
    - destruct (fallback_path_raw _ _ _ Hf)
        as (mf & sc & sb & ro & co & ch & _ & _ & _ & _ & _ & _ & ->).
      apply ensure_512_length. }
  split.
  { intros m p e Hm Hp He. unfold extract_embeddings. cbv zeta.
    rewrite Hm, Hp, He. reflexivity. }
  split.
  { unfold extract_embeddings. cbv zeta.
    intros [Hm | [Hp | (m & p & Hm & Hp & Hnone)]].
    - rewrite Hm. reflexivity.
    - rewrite Hp. destruct (model (_load_model self)); reflexivity.
    - rewrite Hm, Hp, Hnone. reflexivity. }
  intros Hfb. unfold extract_embeddings. cbv zeta.
  destruct (model (_load_model self)) as [m |]; [| exact Hfb].
  destruct (processor (_load_model self)) as [p |]; [| exact Hfb].
  destruct (_extract_with_wav2vec m p (waveform pa) (sample_rate pa));
    cbn [snd]; [discriminate | exact Hfb].
Qed.

End EmbeddingFacts.

(** ** Audio quality assessor *)

Section AudioQualityFacts.
Import Py Numeric AudioProcessor SupabaseService.
Context {F : Type} `{FloatArith F} `{Librosa F}.

Lemma clarity_score_range (cent : list F) (n : Z) :
  clarity_score cent = Some n -> (0 <= n <= 100)%Z.
Proof.
  unfold clarity_score.
  destruct (f_int _) as [k |]; cbn [bind]; [| discriminate].
  intros [= <-]. lia.
Qed.

Lemma spectral_quality_score_range (bw : list F) (n : Z) :
  spectral_quality_score bw = Some n -> (0 <= n <= 100)%Z.
Proof.
  unfold spectral_quality_score.
  destruct (f_int _) as [k |]; cbn [bind]; [| discriminate].
  intros [= <-]. lia.
Qed.

Lemma assess_quality_steps (pa : processed_audio F) (m : quality_metrics F) :
  assess_quality pa = Some m ->
  exists cent bw,
    clarity_score cent = Some (clarity m)
    /\ spectral_quality_score bw = Some (spectral_quality m)
    /\ snr m = fst (signal_to_noise (waveform pa)).
Proof.
  unfold assess_quality. cbv zeta.
  destruct (spectral_centroid _ _) as [mc |]; cbn [bind]; [| discriminate].
  destruct (row0 mc) as [cent |]; cbn [bind]; [| discriminate].
  destruct (clarity_score cent) as [c |] eqn:Hc; cbn [bind]; [| discriminate].
  destruct (spectral_bandwidth _ _) as [mb |]; cbn [bind]; [| discriminate].
  destruct (row0 mb) as [bw |]; cbn [bind]; [| discriminate].
  destruct (spectral_quality_score bw) as [q |] eqn:Hq; cbn [bind];
    [| discriminate].
  intros [= <-]. exists cent, bw. cbn. auto.
Qed.

Lemma assess_loaded_steps (loaded : option (list F * Z)) (m : quality_metrics F) :
  assess_loaded loaded = Some m ->
  exists y sr cent bw,
    loaded = Some (y, sr)
    /\ clarity_score cent = Some (clarity m)
    /\ spectral_quality_score bw = Some (spectral_quality m)
    /\ snr m = fst (signal_to_noise y).
Proof.
  unfold assess_loaded.
  destruct loaded as [[y sr] |]; cbn [bind]; [| discriminate].
  destruct (get_duration y sr) as [d |]; cbn [bind]; [| discriminate].
  destruct (spectral_centroid _ _) as [mc |]; cbn [bind]; [| discriminate].
  destruct (row0 mc) as [cent |]; cbn [bind]; [| discriminate].
  destruct (clarity_score cent) as [c |] eqn:Hc; cbn [bind]; [| discriminate].
  destruct (spectral_bandwidth _ _) as [mb |]; cbn [bind]; [| discriminate].
  destruct (row0 mb) as [bw |]; cbn [bind]; [| discriminate].
  destruct (spectral_quality_score bw) as [q |] eqn:Hq; cbn [bind];
    [| discriminate].
  intros [= <-]. exists y, sr, cent, bw. cbn. auto.
Qed.

(** C8. The clarity and the spectral quality of every record the assessor
    returns lie between 0 and 100: for the agent's [assess_quality], which
    returns a record whenever the two spectral routines and the two
    conversions to [int] succeed, and for the upload path's
    [_assess_audio_quality], which always returns a record. *)
Theorem quality_scores_in_range
    (pa : processed_audio F) (loaded : option (list F * Z)) :
  (forall m, assess_quality pa = Some m -> in_range m)
  /\ (forall cent cents bw bws a b,
        spectral_centroid (waveform pa) (sample_rate pa) = Some (cent :: cents) ->
        f_int (f_div (np_mean cent) (f_lit 50)) = Some a ->
        spectral_bandwidth (waveform pa) (sample_rate pa) = Some (bw :: bws) ->
        f_int (f_sub (f_lit 100) (f_div (np_mean bw) (f_lit 100))) = Some b ->
        exists m, assess_quality pa = Some m
                  /\ clarity m = Z.min 100 (Z.max 0 a)
                  /\ spectral_quality m = Z.min 100 (Z.max 0 b))
  /\ in_range (_assess_audio_quality loaded).
Proof.
  split; [| split].
  - intros m Hm. destruct (assess_quality_steps _ _ Hm) as (cent & bw & Hc & Hq & _).
    split; [exact (clarity_score_range _ _ Hc)
           | exact (spectral_quality_score_range _ _ Hq)].
  - intros cent cents bw bws a b Hcent Ha Hbw Hb.
    unfold assess_quality. cbv zeta.
    rewrite Hcent. cbn [bind row0]. unfold clarity_score at 1.
    rewrite Ha. cbn [bind]. rewrite Hbw. cbn [bind row0].
    unfold spectral_quality_score at 1. rewrite Hb. cbn [bind].
    eexists. split; [reflexivity |]. split; reflexivity.
  - unfold _assess_audio_quality.
    destruct (assess_loaded loaded) as [m |] eqn:Hm.
    + destruct (assess_loaded_steps _ _ Hm)
        as (y & sr & cent & bw & _ & Hc & Hq & _).
      split; [exact (clarity_score_range _ _ Hc)
             | exact (spectral_quality_score_range _ _ Hq)].
    + unfold in_range, default_quality. cbn. lia.
Qed.

(** C9. The signal-to-noise ratio is [10 * log10 (signal_power /
    noise_estimate)], with the signal power the mean of the squared
    samples and the noise estimate a tenth of the variance, exactly when
    the noise estimate passes the test [> 0], and the constant 30
    otherwise; the one division and the one logarithm are evaluated in the
    first case only, so no division has a denominator that fails the
    test.  Both assessors report this value. *)
Theorem snr_division_is_guarded (w : list F) :
  let signal_power := np_mean (map (fun x => f_mul x x) w) in
  let noise_estimate := f_mul (np_var w) (f_lit (1 # 10)) in
  signal_to_noise w =
    (if f_gtb noise_estimate (f_lit 0) then
       (f_mul (f_lit 10) (f_log10 (f_div signal_power noise_estimate)),
        [DivideBy noise_estimate; Log10Of (f_div signal_power noise_estimate)])
     else (f_lit 30, []))
  /\ Forall guarded (snd (signal_to_noise w))
  /\ (forall pa m, waveform pa = w -> assess_quality pa = Some m ->
        snr m = fst (signal_to_noise w))
  /\ (forall sr m, assess_loaded (Some (w, sr)) = Some m ->
        snr (_assess_audio_quality (Some (w, sr))) = fst (signal_to_noise w)).
Proof.
  cbv zeta. split; [reflexivity |]. split; [| split].
  - unfold signal_to_noise, signal_power, noise_estimate.
    destruct (f_gtb _ _) eqn:Hgt; cbn [snd].
    + constructor; [exact Hgt |]. constructor; [exact I | constructor].
    + constructor.
  - intros pa m <- Hm.
    now destruct (assess_quality_steps _ _ Hm) as (_ & _ & _ & _ & Hsnr).
  - intros sr m Hm. unfold _assess_audio_quality. rewrite Hm.
    destruct (assess_loaded_steps _ _ Hm) as (y & sr' & _ & _ & Hl & _ & _ & Hsnr).
    injection Hl as <- <-. exact Hsnr.
Qed.

End AudioQualityFacts.

(** ** Inference gateway *)

Section DictionaryFacts.
Import Py Json.

Lemma dict_get_set {V : Type} (d : list (string * V)) (k k' : string) (v : V) :
  dict_get (dict_set d k v) k' = if String.eqb k' k then Some v else dict_get d k'.
Proof.
  induction d as [| [k0 v0] d IH]; simpl.
  - destruct (String.eqb k' k); reflexivity.
  - destruct (String.eqb_spec k k0) as [-> | Hk]; simpl.
    + destruct (String.eqb k' k0); reflexivity.
    + rewrite IH. destruct (String.eqb_spec k' k0) as [-> | Hk'].
      * destruct (String.eqb_spec k0 k) as [-> | _]; [contradiction | reflexivity].
      * reflexivity.
Qed.

Lemma find_from_spec (c : ascii) (s : string) (i0 : Z) :
  (find_from c s i0 = (-1)%Z /\ forall k, String.get k s <> Some c)
  \/ (exists n : nat,
        find_from c s i0 = (i0 + Z.of_nat n)%Z
        /\ String.get n s = Some c
        /\ forall k, k < n -> String.get k s <> Some c).
Proof.
  revert i0. induction s as [| a s IH]; intros i0; simpl.
  - left. split; [reflexivity | intros k; destruct k; discriminate].
  - destruct (Ascii.eqb_spec a c) as [-> | Hac].
    + right. exists 0. split; [lia |]. split; [reflexivity | lia].
    + destruct (IH (i0 + 1)%Z) as [[Hr Hno] | (n & Hr & Hn & Hlt)].
      * left. split; [exact Hr |].
        intros [| k]; simpl; [congruence | apply Hno].
      * right. exists (S n). split; [lia |]. split; [exact Hn |].
        intros [| k] Hk; simpl; [congruence | apply Hlt; lia].
Qed.

Lemma rfind_from_spec (c : ascii) (s : string) (i0 last : Z) :
  (rfind_from c s i0 last = last /\ forall k, String.get k s <> Some c)
  \/ (exists n : nat,
        rfind_from c s i0 last = (i0 + Z.of_nat n)%Z
        /\ String.get n s = Some c
        /\ forall k, n < k -> String.get k s <> Some c).
Proof.
  revert i0 last. induction s as [| a s IH]; intros i0 last; simpl.
  - left. split; [reflexivity | intros k; destruct k; discriminate].
  - destruct (IH (i0 + 1)%Z (if Ascii.eqb a c then i0 else last))
      as [[Hr Hno] | (n & Hr & Hn & Hgt)].
    + destruct (Ascii.eqb_spec a c) as [-> | Hac].
      * right. exists 0. split; [lia |]. split; [reflexivity |].
        intros [| k] Hk; simpl; [lia | apply Hno].
      * left. split; [exact Hr |].
        intros [| k]; simpl; [congruence | apply Hno].
    + right. exists (S n). split; [lia |]. split; [exact Hn |].
      intros [| k] Hk; simpl; [lia | apply Hgt; lia].
Qed.

Lemma find_rfind_delimit (text : string) :
  (0 <= find "{" text)%Z -> (0 <= rfind "}" text)%Z ->
  delimits text (find "{" text) (rfind "}" text).
Proof.
  unfold find, rfind, delimits. intros Hi Hj.
  destruct (find_from_spec "{" text 0) as [[Hr _] | (n & Hr & Hn & Hlt)];
    [lia |].
  destruct (rfind_from_spec "}" text 0 (-1)) as [[Hr' _] | (n' & Hr' & Hn' & Hgt)];
    [lia |].
  rewrite Hr, Hr'. rewrite !Z.add_0_l, !Nat2Z.id. auto.
Qed.

End DictionaryFacts.

Section GatewayFacts.
Import Py Json ClaudeInference.
Context `{JsonLib} `{AnthropicService.AnthropicClient} `{AgentRuntime}.

Lemma ensure_sections_object (sections : list string) (d : list (string * json)) :
  exists d',
    ensure_sections sections (JObj d) = Some (JObj d')
    /\ forall k, dict_get d' k =
         match dict_get d k with
         | Some v => Some v
         | None => if in_list k sections then Some (JObj []) else None
         end.
Proof.
  revert d. induction sections as [| s sections IH]; intros d.
  - exists d. split; [reflexivity |]. intros k. now destruct (dict_get d k).
  - cbn [ensure_sections py_in bind]. unfold dict_mem.
    destruct (dict_get d s) as [v |] eqn:Hs.
    + destruct (IH d) as (d' & Hrun & Hget). exists d'. split; [exact Hrun |].
      intros k. rewrite Hget. destruct (dict_get d k) eqn:Hk; [reflexivity |].
      unfold in_list. cbn [existsb].
      destruct (String.eqb_spec k s) as [-> | _]; [congruence | reflexivity].
    + cbn [py_setitem bind].
      destruct (IH (dict_set d s (JObj []))) as (d' & Hrun & Hget).
      exists d'. split; [exact Hrun |].
      intros k. rewrite Hget, dict_get_set. unfold in_list. cbn [existsb].
      destruct (String.eqb_spec k s) as [-> | _].
      * rewrite Hs. reflexivity.
      * reflexivity.
Qed.

Lemma default_field_object (d g : list (string * json))
    (section field : string) (value : json) :
  dict_get d section = Some (JObj g) ->
  exists g',
    default_field (JObj d) section field value
    = Some (JObj (dict_set d section (JObj g')))
    /\ forall f, dict_get g' f =
         match dict_get g f with
         | Some v => Some v
         | None => if String.eqb f field then Some value else None
         end.
Proof.
  intros Hsec. unfold default_field. cbn [py_getitem]. rewrite Hsec.
  cbn [bind py_in]. unfold dict_mem.
  destruct (dict_get g field) as [v |] eqn:Hf.
  - exists g. split.
    + f_equal. f_equal. clear Hf. induction d as [| [k0 v0] d IH]; [discriminate |].
      simpl in *. destruct (String.eqb section k0); [congruence |].
      f_equal. apply IH. exact Hsec.
    + intros f. destruct (dict_get g f) eqn:Hg; [reflexivity |].
      destruct (String.eqb_spec f field) as [-> | _]; [congruence | reflexivity].
  - exists (dict_set g field value). cbn [py_setitem bind]. split; [reflexivity |].
    intros f. rewrite dict_get_set.
    destruct (String.eqb_spec f field) as [-> | _]; [now rewrite Hf |].
    now destruct (dict_get g f).
Qed.

Lemma validate_response_object (d : list (string * json)) :
  (forall v, dict_get d "glucose_assessment" = Some v -> exists g, v = JObj g) ->
  exists d' g',
    _validate_response (JObj d) = Some (JObj d')
    /\ (forall k, dict_get d' k =
          if String.eqb k "glucose_assessment" then Some (JObj g')
          else match dict_get d k with
               | Some v => Some v
               | None => if in_list k required_sections then Some (JObj []) else None
               end)
    /\ (forall f, dict_get g' f =
          match dict_get (assessment_members d) f with
          | Some v => Some v
          | None =>
              if String.eqb f "primary_estimate" then Some (JStr "normal")
              else if String.eqb f "confidence_score" then Some (JNum (1 # 2))
              else None
          end).
Proof.
  intros Hobj. unfold _validate_response.
  destruct (ensure_sections_object required_sections d) as (d1 & Hrun & Hget1).
  rewrite Hrun. cbn [bind py_in]. unfold dict_mem.
  assert (Hg1 : dict_get d1 "glucose_assessment" = Some (JObj (assessment_members d))).
  { rewrite Hget1. unfold assessment_members.
    destruct (dict_get d "glucose_assessment") as [v |] eqn:Hv; [| reflexivity].
    destruct (Hobj v eq_refl) as [g ->]. reflexivity. }
  rewrite Hg1.
  destruct (default_field_object d1 _ "glucose_assessment" "primary_estimate"
              (JStr "normal") Hg1) as (g1 & Hrun1 & Hf1).
  rewrite Hrun1. cbn [bind].
  assert (Hg2 : dict_get (dict_set d1 "glucose_assessment" (JObj g1))
                  "glucose_assessment" = Some (JObj g1)).
  { rewrite dict_get_set. reflexivity. }
  destruct (default_field_object _ _ "glucose_assessment" "confidence_score"
              (JNum (1 # 2)) Hg2) as (g2 & Hrun2 & Hf2).
  rewrite Hrun2.
  eexists. exists g2. split; [reflexivity |]. split.
  - intros k. rewrite !dict_get_set.
    destruct (String.eqb k "glucose_assessment"); [reflexivity | apply Hget1].
  - intros f. rewrite Hf2, Hf1.
    destruct (dict_get (assessment_members d) f); [reflexivity |].
    destruct (String.eqb_spec f "primary_estimate") as [-> | _]; reflexivity.
Qed.

Lemma parse_response_nonempty (text : string) :
  text <> "" ->
  parse_response (Some text) =
    if (0 <=? find "{" text)%Z && (find "{" text <? rfind "}" text + 1)%Z then
      match (parsed <- json_loads
                         (slice text (find "{" text) (rfind "}" text + 1)) ;;
             _validate_response parsed) with
      | Some parsed => parsed
      | None => _generate_fallback_response
      end
    else _generate_fallback_response.
Proof. destruct text; [contradiction | reflexivity]. Qed.

Lemma slice_inclusive (text : string) (i j : Z) :
  (0 <= i <= j)%Z ->
  slice text i (j + 1) =
    String.substring (Z.to_nat i) (Z.to_nat (j - i) + 1) text.
Proof. intros Hij. unfold slice. f_equal. lia. Qed.

(** C2. For a non-empty response text with an opening brace at or before
    its last closing brace, whose span from the first opening brace to the
    last closing brace inclusive parses as a JSON object in which
    [glucose_assessment], when present, is an object, [parse_response]
    returns that object validated: every key of the parsed object is kept
    with its value, each of the four sections that is absent is an empty
    object, and [glucose_assessment] keeps its fields and gets
    [primary_estimate] "normal" and [confidence_score] 0.5 where they are
    missing.  No field omission turns the result into the fallback. *)
Theorem parse_response_fills_defaults (text : string) (d : list (string * json)) :
  text <> "" ->
  (0 <= find "{" text <= rfind "}" text)%Z ->
  json_loads
    (String.substring (Z.to_nat (find "{" text))
       (Z.to_nat (rfind "}" text - find "{" text) + 1) text)
  = Some (JObj d) ->
  (forall v, dict_get d "glucose_assessment" = Some v -> exists g, v = JObj g) ->
  delimits text (find "{" text) (rfind "}" text)
  /\ exists d' g',
       parse_response (Some text) = JObj d'
       /\ (forall k, dict_get d' k =
             if String.eqb k "glucose_assessment" then Some (JObj g')
             else match dict_get d k with
                  | Some v => Some v
                  | None =>
                      if in_list k required_sections then Some (JObj []) else None
                  end)
       /\ (forall f, dict_get g' f =
             match dict_get (assessment_members d) f with
             | Some v => Some v
             | None =>
                 if String.eqb f "primary_estimate" then Some (JStr "normal")
                 else if String.eqb f "confidence_score" then Some (JNum (1 # 2))
                 else None
             end).
Proof.
  intros Hne Hij Hloads Hobj. split; [apply find_rfind_delimit; lia |].
  destruct (validate_response_object d Hobj) as (d' & g' & Hval & Hkeys & Hfields).
  exists d', g'. split; [| split; assumption].
  rewrite (parse_response_nonempty text Hne).
  replace ((0 <=? find "{" text)%Z && (find "{" text <? rfind "}" text + 1)%Z)
    with true by (symmetry; apply andb_true_intro; split; lia).
  rewrite (slice_inclusive text _ _ Hij), Hloads. cbn [bind].
  rewrite Hval. reflexivity.
Qed.

Lemma parse_response_unusable (claude_response : option string) :
  unusable claude_response ->
  parse_response claude_response = _generate_fallback_response.
Proof.
  destruct claude_response as [text |]; [| reflexivity].
  intros Hbad. destruct text as [| c s] eqn:Htext; [reflexivity |].
  rewrite <- Htext in *.
  assert (Hne : text <> "") by (subst; discriminate).
  rewrite (parse_response_nonempty text Hne).
  destruct ((0 <=? find "{" text)%Z && (find "{" text <? rfind "}" text + 1)%Z)
    eqn:Hcond; [| reflexivity].
  apply andb_prop in Hcond. destruct Hcond as [Hi Hj].
  destruct Hbad as [He | [Hi' | [Hj' | [Hload | (parsed & Hload & Hval)]]]].
  - contradiction.
  - lia.
  - lia.
  - rewrite Hload. reflexivity.
  - rewrite Hload. cbn [bind]. rewrite Hval. reflexivity.
Qed.

Lemma analyze_voice_data_failure (conversation : json) (metrics : option json) :
  (forall user_prompt,
      AnthropicService.voice_data_prompt conversation metrics = Some user_prompt ->
      match AnthropicService.generate_structured_output
              AnthropicService.CLAUDE_ANALYSIS_PROMPT user_prompt 4000 None with
      | Some result => truthy result = false
      | None => True
      end) ->
  AnthropicService.analyze_voice_data conversation metrics
  = AnthropicService._generate_fallback_response.
Proof.
  intros Hfail. unfold AnthropicService.analyze_voice_data.
  destruct (AnthropicService.voice_data_prompt conversation metrics)
    as [user_prompt |]; [| reflexivity].
  specialize (Hfail user_prompt eq_refl).
  destruct (AnthropicService.generate_structured_output _ _ _ _) as [result |];
    [| reflexivity].
  now rewrite Hfail.
Qed.

(** [generate_message] is a plain method, so in CPython the [await] of
    [call_claude] raises and the handler returns [None]. *)
Lemma call_claude_unawaitable (prompt : string * string) :
  plain_value_awaitable = false -> call_claude prompt = None.
Proof. intros Hplain. unfold call_claude. now rewrite Hplain. Qed.

(** C3, as the code has it.  Every failure path of the inference agent
    (missing inputs, a failed call, an empty reply, a reply without a
    brace span, a span that is not JSON, a parsed value on which the
    validation raises) returns the agent's one fallback record, whose
    [primary_estimate] is "normal" and whose [confidence_score] is 0.3;
    the failure paths of the wrapper's [analyze_voice_data] return the
    wrapper's own fallback record, whose [primary_estimate] is "normal"
    and whose [confidence_score] is 0.75. *)
Theorem failure_paths_return_fallback
    (embeddings user_context audio_quality : json) (prompt : string * string) :
  build_analysis_prompt embeddings user_context audio_quality = Some prompt ->
  (truthy embeddings = false \/ truthy user_context = false ->
     option_map glucose_prediction
       (analyze_glucose embeddings user_context audio_quality)
     = Some _generate_fallback_response)
  /\ (AnthropicService.generate_message (fst prompt) (snd prompt) 2000
        (Some "claude-3-7-sonnet-20250219") = None ->
      call_claude prompt = None)
  /\ (truthy embeddings = true -> truthy user_context = true ->
      unusable (call_claude prompt) ->
      analyze_glucose embeddings user_context audio_quality
      = Some (Analysed _generate_fallback_response (call_claude prompt)))
  /\ assessment_field _generate_fallback_response "primary_estimate"
     = Some (JStr "normal")
  /\ assessment_field _generate_fallback_response "confidence_score"
     = Some (JNum (3 # 10))
  /\ (forall conversation metrics,
        (forall user_prompt,
            AnthropicService.voice_data_prompt conversation metrics
            = Some user_prompt ->
            match AnthropicService.generate_structured_output
                    AnthropicService.CLAUDE_ANALYSIS_PROMPT user_prompt 4000 None with
            | Some result => truthy result = false
            | None => True
            end) ->
        AnthropicService.analyze_voice_data conversation metrics
        = AnthropicService._generate_fallback_response)
  /\ assessment_field AnthropicService._generate_fallback_response "primary_estimate"
     = Some (JStr "normal")
  /\ assessment_field AnthropicService._generate_fallback_response "confidence_score"
     = Some (JNum (3 # 4)).
Proof.
  intros Hprompt. repeat split.
  - intros Hmissing. unfold analyze_glucose.
    destruct Hmissing as [-> | ->]; [reflexivity |].
    rewrite orb_true_r. reflexivity.
  - intros Hfail. unfold call_claude. rewrite Hfail.
    now destruct plain_value_awaitable.
  - intros He Hu Hbad. unfold analyze_glucose. rewrite He, Hu, Hprompt.
    cbn [negb orb bind]. now rewrite (parse_response_unusable _ Hbad).
  - exact analyze_voice_data_failure.
Qed.

End GatewayFacts.

(** ** Response synthesizer *)

Section SynthesizerFacts.
Import Py Json VoiceSynthesis.

Lemma voice_ids_distinct :
  voice_of "serious_medical_voice" <> voice_of "confident_assistant"
  /\ voice_of "serious_medical_voice" <> voice_of "cautious_assistant"
  /\ voice_of "confident_assistant" <> voice_of "cautious_assistant".
Proof. repeat split; discriminate. Qed.


Section Selection.
Context `{VoiceService} `{ScriptText}.






(** The script is a string on every path, and a raising call gives no
    audio reference. *)
Lemma raising_call_keeps_script (prediction user_profile glucose : json) :
  truthy prediction = true ->
  py_get prediction "glucose_prediction" JNull = Some glucose ->
  truthy glucose = true ->
  (forall text voice s b fmt,
      service_text_to_speech text voice s b fmt = Raised) ->
  synthesize_response prediction user_profile
  = Some {| error := None;
            voice_response := None;
            voice_script := Some (fst (create_voice_script glucose user_profile)) |}.
Proof.
  intros Hp Hget Hg Hraise. unfold synthesize_response.
  rewrite Hp, Hget. cbn [negb bind]. rewrite Hg. cbn [negb].
  destruct (create_voice_script glucose user_profile) as [script config].
  unfold synthesize_voice. rewrite Hraise. reflexivity.
Qed.

End Selection.

(** C7, as the code has it.  The agent's service is an
    [ElevenLabsService], whose [text_to_speech] answers a failed request by
    returning [None].  For a valid glucose prediction the synthesizer then
    returns the script text, and with it the placeholder address as audio
    reference, not a null one. *)
Theorem failed_request_returns_address
    `{ElevenLabsService.Transport} `{ScriptText}
    (prediction user_profile glucose : json) :
  truthy prediction = true ->
  py_get prediction "glucose_prediction" JNull = Some glucose ->
  truthy glucose = true ->
  (forall text voice s b fmt,
      ElevenLabsService.text_to_speech text voice s b fmt = None) ->
  synthesize_response prediction user_profile
  = Some {| error := None;
            voice_response :=
              Some ("https://storage.example.com/voice_responses/"
                      ++ ElevenLabsService.timestamp ++ ".mp3")%string;
            voice_script := Some (fst (create_voice_script glucose user_profile)) |}.
Proof.
  intros Hp Hget Hg Hfail. unfold synthesize_response.
  rewrite Hp, Hget. cbn [negb bind]. rewrite Hg. cbn [negb].
  destruct (create_voice_script glucose user_profile) as [script config].
  reflexivity.
Qed.

End SynthesizerFacts.

(** ** Worked instances *)

Section WorkedInstances.
Import Py Numeric Json ContextService AudioProcessor SupabaseService
       EmbeddingExtractor ClaudeInference VoiceSynthesis MiniJson Standins
       Instances.

Lemma embedding_has_512_entries_witness :
  (exists e,
      snd (extract_embeddings (H1 := loaded_model) init two_samples) = Some e
      /\ List.length e = 512)
  /\ (exists e,
        snd (extract_embeddings (H1 := missing_model) init two_samples) = Some e
        /\ List.length e = 512).
Proof.
  split.
  - eexists. split; [vm_compute; reflexivity |].
    apply (proj1 (proj2 (proj2 (proj2 (proj2 (proj2
             (embedding_has_512_entries (H1 := loaded_model) init two_samples))))))).
    vm_compute. reflexivity.
  - eexists. split; [vm_compute; reflexivity |].
    apply (proj1 (proj2 (proj2 (proj2 (proj2 (proj2
             (embedding_has_512_entries (H1 := missing_model) init two_samples))))))).
    vm_compute. reflexivity.
Defined.

Lemma quality_scores_in_range_witness :
  exists m, assess_quality two_samples = Some m
            /\ AudioProcessor.clarity m = 40%Z /\ spectral_quality m = 84%Z
            /\ in_range m.
Proof.
  eexists. split; [vm_compute; reflexivity |].
  split; [reflexivity |]. split; [reflexivity |].
  apply (proj1 (quality_scores_in_range two_samples None)).
  vm_compute. reflexivity.
Defined.

Lemma snr_division_is_guarded_witness :
  exists m, assess_quality two_samples = Some m
            /\ snr m = fst (signal_to_noise (waveform two_samples))
            /\ snr m = Some 10%Q.
Proof.
  eexists. split; [vm_compute; reflexivity |]. split; [| reflexivity].
  apply (proj1 (proj2 (proj2 (snr_division_is_guarded (waveform two_samples))))
           two_samples); [reflexivity |].
  vm_compute. reflexivity.
Defined.

Lemma determine_metabolic_phase_table_witness :
  phase (determine_metabolic_phase (Some "yesterday evening")) = "Unknown"
  /\ is_critical_window (determine_metabolic_phase (Some "yesterday evening")) = false
  /\ is_critical_window (determine_metabolic_phase (Some "1-2 hours ago")) = true.
Proof.
  destruct determine_metabolic_phase_table
    as (_ & _ & _ & Hunknown & _ & Hcritical).
  destruct (Hunknown "yesterday evening") as [Hphase Hwindow].
  - simpl. intuition discriminate.
  - split; [exact Hphase |]. split; [exact Hwindow |].
    apply Hcritical. reflexivity.
Defined.

Lemma nonspecific_only_is_mixed_witness :
  direction (analyze_symptom_constellation
               (Some ["Fatigue or drowsiness"; "Nausea or vomiting"])) = "Mixed"
  /\ cluster_type (analyze_symptom_constellation
                     (Some ["Fatigue or drowsiness"; "Nausea or vomiting"]))
     = "Mixed Symptom Cluster"
  /\ analyze_symptom_constellation (Some ["Fatigue or drowsiness"; "sore throat"])
     = analyze_symptom_constellation
         (Some ["Fatigue or drowsiness"; "Nausea or vomiting"]).
Proof.
  destruct (nonspecific_only_is_mixed ["Fatigue or drowsiness"; "Nausea or vomiting"])
    as (Hdir & Hcluster & _ & _ & _ & Hsame).
  - discriminate.
  - simpl. intros s Hs. split; intuition (subst; discriminate).
  - split; [exact Hdir |]. split; [exact Hcluster |].
    apply Hsame; [reflexivity |].
    simpl. intros s Hs. split; intuition (subst; discriminate).
Defined.

Lemma parse_response_fills_defaults_witness :
  exists d' g',
    parse_response (Some noisy_reply) = JObj d'
    /\ dict_get d' "glucose_assessment" = Some (JObj g')
    /\ dict_get g' "primary_estimate" = Some (JStr "elevated")
    /\ dict_get g' "confidence_score" = Some (JNum (1 # 2))
    /\ dict_get d' "analysis_details" = Some (JObj [])
    /\ dict_get d' "clinical_insights" = Some (JObj [])
    /\ dict_get d' "limitations" = Some (JObj []).
Proof.
  destruct (parse_response_fills_defaults noisy_reply
              [("glucose_assessment", JObj [("primary_estimate", JStr "elevated")])])
    as (_ & d' & g' & Hrun & Hkeys & Hfields).
  - discriminate.
  - vm_compute. split; discriminate.
  - vm_compute. reflexivity.
  - intros v Hv. vm_compute in Hv. injection Hv as <-. eexists. reflexivity.
  - exists d', g'. split; [exact Hrun |].
    rewrite !Hkeys, !Hfields. repeat split; reflexivity.
Defined.

(** A reply whose [glucose_assessment] is not an object: the assignment of
    the default raises, and the handler answers with the fallback. *)
Example misshapen_reply_is_fallback :
  parse_response (Some misshapen_reply) = ClaudeInference._generate_fallback_response.
Proof. vm_compute. reflexivity. Qed.

(** C3, as stated, fails: with a reasoning service whose every request
    fails, the wrapper's [analyze_voice_data] returns a record whose
    [confidence_score] is 0.75, not the 0.3 of the agent's fallback, so the
    failure paths do not share one constant. *)
Lemma wrapper_fallback_differs :
  let agent_result :=
    option_map glucose_prediction
      (analyze_glucose (H0 := client_with None) (H1 := runtime_with true)
         (JArr [JNum 1]) (JObj [("user_id", JStr "u1")]) (JObj [])) in
  let wrapper_result :=
    AnthropicService.analyze_voice_data (H0 := client_with None)
      (JStr "no diabetes") None in
  agent_result = Some ClaudeInference._generate_fallback_response
  /\ assessment_field wrapper_result "confidence_score" = Some (JNum (3 # 4))
  /\ assessment_field wrapper_result "confidence_score" <> Some (JNum (3 # 10))
  /\ Some wrapper_result <> agent_result.
Proof.
  cbv zeta. split; [vm_compute; reflexivity |].
  split; [vm_compute; reflexivity |].
  split; vm_compute; discriminate.
Qed.

Lemma failure_paths_return_fallback_witness :
  analyze_glucose (H0 := client_with None) (H1 := runtime_with true)
    (JArr [JNum 1]) (JObj [("user_id", JStr "u1")]) (JObj [])
  = Some (Analysed ClaudeInference._generate_fallback_response None).
Proof.
  destruct (failure_paths_return_fallback
              (H0 := client_with None) (H1 := runtime_with true)
              (JArr [JNum 1]) (JObj [("user_id", JStr "u1")]) (JObj [])
              ("system instructions", "analysis request") eq_refl)
    as (_ & Hcall & Hrun & _).
  rewrite Hrun; [| reflexivity | reflexivity |].
  - rewrite Hcall; reflexivity.
  - rewrite Hcall; [exact I | reflexivity].
Defined.



Lemma failed_request_returns_address_witness :
  synthesize_response
    (H := elevenlabs_voice_service (H := transport_with 500))
    (JObj [("glucose_prediction", critical_assessment)]) (JObj [])
  = Some {| error := None;
            voice_response :=
              Some "https://storage.example.com/voice_responses/20250101120000.mp3";
            voice_script := Some "Attention: Your voice analysis indicates" |}.
Proof.
  exact (failed_request_returns_address (H := transport_with 500)
           (JObj [("glucose_prediction", critical_assessment)]) (JObj [])
           critical_assessment eq_refl eq_refl eq_refl
           (fun _ _ _ _ _ => eq_refl)).
Defined.

(** The two other failure modes: a transport that raises also ends in the
    placeholder address, and only a service call that itself raises gives a
    null audio reference. *)
Example raising_transport_returns_address :
  option_map voice_response
    (synthesize_response
       (H := elevenlabs_voice_service (H := broken_transport))
       (JObj [("glucose_prediction", critical_assessment)]) (JObj []))
  = Some (Some "https://storage.example.com/voice_responses/20250101120000.mp3").
Proof. vm_compute. reflexivity. Qed.

Example raising_service_gives_null_audio :
  synthesize_response (H := raising_voice_service)
    (JObj [("glucose_prediction", critical_assessment)]) (JObj [])
  = Some {| error := None;
            voice_response := None;
            voice_script := Some "Attention: Your voice analysis indicates" |}.
Proof. vm_compute. reflexivity. Qed.

End WorkedInstances.

(** * Further properties of the modelled code *)

(** ** Context scorer: the status tables and the symptom scorer *)

Section ContextScorerExtras.
Import Py ContextService.

Ltac split_on_keys status :=
  repeat match goal with
         | |- context [String.eqb status ?k] =>
             destruct (String.eqb_spec status k) as [-> | ?]
         end.

(** X1. The baseline risk of every diabetes status, recognised or not, lies
    between 0.1 and 0.8, hence in the unit interval. *)
Theorem risk_level_in_unit_interval (diabetes_status : string) :
  (1 # 10 <= calculate_risk_level diabetes_status)%Q
  /\ (calculate_risk_level diabetes_status <= 8 # 10)%Q
  /\ (0 <= calculate_risk_level diabetes_status <= 1)%Q.
Proof.
  unfold calculate_risk_level, risk_levels. cbn [dict_get].
  split_on_keys diabetes_status; unfold Qle; cbn; lia.
Qed.

(** X2. The three status tables recognise the same seven statuses: a status
    gets the default risk 0.4 exactly when it gets the default variability
    profile and exactly when it gets the general consideration text, and that
    happens exactly for the statuses outside the seven (the key "Unknown" of
    the considerations table carries the default text). *)
Theorem status_tables_agree (diabetes_status : string) :
  let known := In diabetes_status (map fst risk_levels) in
  (~ known <-> calculate_risk_level diabetes_status = (4 # 10)%Q)
  /\ (~ known <->
      get_variability_profile diabetes_status = "Unknown variability profile")
  /\ (~ known <->
      get_special_considerations diabetes_status
      = "general glucose assessment without specific risk stratification").
Proof.
  cbv zeta.
  unfold calculate_risk_level, get_variability_profile,
    get_special_considerations, risk_levels, profiles, considerations.
  cbn [dict_get map fst In].
  split_on_keys diabetes_status;
    repeat split; intros Hx; try discriminate; try reflexivity;
    try (exfalso; apply Hx; tauto);
    try (intros Hin; repeat destruct Hin as [Hin | Hin];
         solve [congruence | contradiction]).
Qed.

Lemma filter_length_permutation {A : Type} (p : A -> bool) (l l' : list A) :
  Permutation l l' -> List.length (filter p l) = List.length (filter p l').
Proof.
  induction 1 as [| x l l' _ IH | x y l | l l' l'' _ IH1 _ IH2]; cbn [filter].
  - reflexivity.
  - destruct (p x); cbn [List.length]; now rewrite IH.
  - destruct (p x), (p y); reflexivity.
  - now rewrite IH1.
Qed.

Lemma in_list_permutation (s : string) (l l' : list string) :
  Permutation l l' -> in_list s l = in_list s l'.
Proof.
  intros Hperm.
  destruct (in_list s l) eqn:Hl, (in_list s l') eqn:Hl'; try reflexivity.
  - apply in_list_In in Hl. apply (Permutation_in _ Hperm) in Hl.
    apply in_list_In in Hl. congruence.
  - apply in_list_In in Hl'. apply (Permutation_in _ (Permutation_sym Hperm)) in Hl'.
    apply in_list_In in Hl'. congruence.
Qed.

(** X3. The symptom scorer does not depend on the order in which the
    symptoms are listed. *)
Theorem symptom_order_is_irrelevant (l l' : list string) :
  Permutation l l' ->
  analyze_symptom_constellation (Some l) = analyze_symptom_constellation (Some l').
Proof.
  intros Hperm.
  destruct l as [| s l].
  { apply Permutation_nil in Hperm. now subst. }
  destruct l' as [| s' l'].
  { apply Permutation_sym, Permutation_nil in Hperm. discriminate. }
  unfold analyze_symptom_constellation.
  rewrite !sum_ones_length.
  rewrite (filter_length_permutation
             (fun s0 => in_list s0 hyperglycemia_symptoms) _ _ Hperm).
  rewrite (filter_length_permutation
             (fun s0 => in_list s0 hypoglycemia_symptoms) _ _ Hperm).
  rewrite (Permutation_length Hperm).
  rewrite (in_list_permutation _ _ _ Hperm).
  reflexivity.
Qed.

Lemma urgency_of_list (s : string) (l : list string) :
  urgency (analyze_symptom_constellation (Some (s :: l)))
  = if in_list "Confusion or difficulty concentrating" (s :: l) then "High"
    else urgency_of_total (List.length (s :: l)).
Proof.
  unfold analyze_symptom_constellation. rewrite urgency_by_total.
  destruct (_ <? _)%nat; [reflexivity |].
  destruct (_ <? _)%nat; reflexivity.
Qed.

Lemma urgency_rank_of_total (n : nat) :
  urgency_rank (urgency_of_total n) <= urgency_rank (urgency_of_total (S n))
  /\ urgency_rank (urgency_of_total n) <= urgency_rank "High".
Proof. destruct n as [| [| [| n]]]; cbn; lia. Qed.

(** X4. Reporting one more symptom never lowers the urgency, whatever the
    symptom and whatever was reported before. *)
Theorem urgency_is_monotone (s : string) (l : list string) :
  urgency_rank (urgency (analyze_symptom_constellation (Some l)))
  <= urgency_rank (urgency (analyze_symptom_constellation (Some (s :: l)))).
Proof.
  destruct l as [| s' l].
  { replace (urgency_rank (urgency (analyze_symptom_constellation (Some []))))
      with 0 by reflexivity.
    lia. }
  rewrite !urgency_of_list.
  replace (in_list "Confusion or difficulty concentrating" (s :: s' :: l))
    with (String.eqb "Confusion or difficulty concentrating" s
          || in_list "Confusion or difficulty concentrating" (s' :: l))
    by reflexivity.
  destruct (urgency_rank_of_total (List.length (s' :: l))) as [Hstep Htop].
  destruct (in_list "Confusion or difficulty concentrating" (s' :: l)).
  - rewrite orb_true_r. lia.
  - rewrite orb_false_r.
    destruct (String.eqb "Confusion or difficulty concentrating" s);
      [exact Htop | exact Hstep].
Qed.

(** X5. The record of the symptom scorer is always one of four consistent
    pairs of direction and cluster type with one of the three urgency
    levels, and the Neutral/Asymptomatic pair is returned exactly for a
    missing or empty list. *)
Theorem symptom_record_is_consistent (symptoms : option (list string)) :
  let r := analyze_symptom_constellation symptoms in
  ((direction r, cluster_type r) = ("Neutral", "Asymptomatic")
   \/ (direction r, cluster_type r) = ("Hyperglycemic", "Hyperglycemia Cluster")
   \/ (direction r, cluster_type r) = ("Hypoglycemic", "Hypoglycemia Cluster")
   \/ (direction r, cluster_type r) = ("Mixed", "Mixed Symptom Cluster"))
  /\ (urgency r = "Low" \/ urgency r = "Moderate" \/ urgency r = "High")
  /\ (direction r = "Neutral" <-> symptoms = None \/ symptoms = Some []).
Proof.
  cbv zeta. destruct symptoms as [[| s l] |].
  - cbn. intuition.
  - rewrite urgency_of_list. unfold analyze_symptom_constellation.
    split; [| split].
    + destruct (_ <? _)%nat; [cbn; tauto |].
      destruct (_ <? _)%nat; cbn; tauto.
    + destruct (in_list _ _); [tauto |].
      destruct l as [| ? [| ? ?]]; cbn; tauto.
    + split.
      * destruct (_ <? _)%nat; [discriminate |].
        destruct (_ <? _)%nat; discriminate.
      * intros [H | H]; discriminate.
  - cbn. intuition.
Qed.

(** X6. The meal-timing scorer answers "Unknown" exactly when it answers
    "Unpredictable", and it does so exactly for the inputs that are not one
    of the six timed phrases: a missing input, the empty string, "I don't
    remember" and every other text. *)
Theorem unknown_phase_inputs (meal_timing : option string) :
  let r := determine_metabolic_phase meal_timing in
  let timed :=
    [ "Currently eating/just finished (0-30 min)"; "30 minutes to 1 hour ago";
      "1-2 hours ago"; "2-4 hours ago"; "4-8 hours ago";
      "8+ hours/overnight fasting" ] in
  (phase r = "Unknown" <-> expected_pattern r = "Unpredictable")
  /\ (phase r = "Unknown" <-> forall s, meal_timing = Some s -> ~ In s timed).
Proof.
  cbv zeta. destruct meal_timing as [s |].
  2:{ cbn. split; [tauto |]. split; [intros _ s Hs; discriminate | reflexivity]. }
  destruct s as [| c s].
  { cbn. split; [tauto |]. split; [| reflexivity].
    intros _ s [= <-]. intuition discriminate. }
  unfold determine_metabolic_phase, phases. cbn [dict_get].
  split_on_keys (String c s); cbn [phase expected_pattern unknown_phase];
    (split; [split; intros Hx; solve [reflexivity | discriminate] |]);
    (split;
     [ intros Hx; try discriminate Hx; intros s0 [= <-]; cbn [In];
       intros Hin; repeat destruct Hin as [Hin | Hin];
       solve [congruence | contradiction]
     | intros Hx; try reflexivity; exfalso; apply (Hx _ eq_refl); cbn [In]; tauto ]).
Qed.

End ContextScorerExtras.

(** ** Embedding extractor and audio quality *)

Section ExtractorExtras.
Import Py Numeric AudioProcessor SupabaseService EmbeddingExtractor.
Context {F M P : Type} `{FloatArith F} `{Librosa F} `{SpeechModel F M P}.

(** X7. Fitting a vector to 512 entries changes nothing when applied twice,
    keeps every entry below the original length (and below 512) where it
    was, and fills every position from the original length on with zero. *)
Theorem ensure_512_entries (raw : list F) (d : F) :
  ensure_512 (ensure_512 raw) = ensure_512 raw
  /\ (forall i, i < Nat.min (List.length raw) 512 ->
        nth i (ensure_512 raw) d = nth i raw d)
  /\ (forall i, List.length raw <= i < 512 ->
        nth i (ensure_512 raw) d = f_lit 0).
Proof.
  split; [| split].
  - pose proof (ensure_512_length raw) as Hlen.
    unfold ensure_512 at 1. rewrite Hlen.
    destruct (Nat.ltb_spec 512 512); [lia | reflexivity].
  - intros i Hi.
    destruct (Nat.le_gt_cases (List.length raw) 512) as [Hle | Hgt].
    + rewrite (ensure_512_pads raw Hle). apply app_nth1. lia.
    + rewrite (ensure_512_truncates raw Hgt). rewrite nth_firstn.
      destruct (Nat.ltb_spec i 512); [reflexivity | lia].
  - intros i [Hlo Hhi].
    rewrite (ensure_512_pads raw) by lia.
    rewrite app_nth2 by lia. apply nth_repeat_lt. lia.
Qed.

(** X8. An agent keeps a model it has loaded: [extract_embeddings] leaves the
    attributes of such an agent as they are.  From an agent without a model
    it leaves either both attributes unset or both set, to what the two
    loaders returned. *)
Theorem extract_embeddings_agent (self : agent M P) (pa : processed_audio F) :
  let self' := fst (extract_embeddings self pa) in
  (model self <> None -> self' = self)
  /\ (model self = None ->
      (model self' = None /\ processor self' = None)
      \/ (exists m p,
            model_from_pretrained = Some m /\ processor_from_pretrained = Some p
            /\ model self' = Some m /\ processor self' = Some p)).
Proof.
  cbv zeta.
  assert (Hfst : fst (extract_embeddings self pa) = _load_model self).
  { unfold extract_embeddings. cbv zeta.
    destruct (model (_load_model self)); [| reflexivity].
    destruct (processor (_load_model self)); [| reflexivity].
    destruct (_extract_with_wav2vec _ _ _ _); reflexivity. }
  rewrite Hfst. unfold _load_model. split.
  - destruct (model self); [reflexivity | congruence].
  - intros ->.
    destruct model_from_pretrained as [m |]; [| left; split; reflexivity].
    destruct processor_from_pretrained as [p |]; [| left; split; reflexivity].
    right. exists m, p. repeat split; reflexivity.
Qed.

(** X9. The agent's assessor and the upload path's assessor agree: when the
    agent's [assess_quality] returns a record for a waveform and
    [librosa.get_duration] returns for it, [_assess_audio_quality] returns the
    same signal-to-noise ratio, clarity and spectral quality, with the
    duration [get_duration] reports. *)
Theorem assessors_agree (pa : processed_audio F) (m : quality_metrics F) (d : F) :
  assess_quality pa = Some m ->
  get_duration (waveform pa) (sample_rate pa) = Some d ->
  _assess_audio_quality (Some (waveform pa, sample_rate pa))
  = {| snr := snr m;
       metrics_duration := d;
       clarity := clarity m;
       spectral_quality := spectral_quality m |}.
Proof.
  intros Hm Hd. unfold _assess_audio_quality, assess_loaded. cbn [bind].
  rewrite Hd. cbn [bind]. revert Hm. unfold assess_quality. cbv zeta.
  destruct (spectral_centroid _ _) as [mc |]; cbn [bind]; [| discriminate].
  destruct (row0 mc) as [cent |]; cbn [bind]; [| discriminate].
  destruct (clarity_score cent) as [c |]; cbn [bind]; [| discriminate].
  destruct (spectral_bandwidth _ _) as [mb |]; cbn [bind]; [| discriminate].
  destruct (row0 mb) as [bw |]; cbn [bind]; [| discriminate].
  destruct (spectral_quality_score bw) as [q |]; cbn [bind]; [| discriminate].
  intros [= <-]. reflexivity.
Qed.

End ExtractorExtras.

(** ** Inference gateway: what every parsed reply looks like *)

Section GatewayExtras.
Import Py Json ClaudeInference.
Context `{JsonLib} `{AnthropicService.AnthropicClient} `{AgentRuntime}.

Lemma py_in_after_set (d : list (string * json)) (k s : string) (v : json) :
  py_in s (JObj d) = Some true -> py_in s (JObj (dict_set d k v)) = Some true.
Proof.
  cbn [py_in]. unfold dict_mem. rewrite dict_get_set.
  destruct (String.eqb s k); [reflexivity |].
  destruct (dict_get d s); [reflexivity | discriminate].
Qed.

Lemma ensure_sections_present (sections : list string) (v v1 : json) :
  ensure_sections sections v = Some v1 ->
  (forall s, In s sections -> py_in s v1 = Some true)
  /\ (forall s, py_in s v = Some true -> py_in s v1 = Some true).
Proof.
  revert v. induction sections as [| section sections IH]; intros v.
  - intros [= <-]. split; [intros s [] | auto].
  - cbn [ensure_sections].
    destruct (py_in section v) as [present |] eqn:Hin; cbn [bind];
      [| discriminate].
    destruct present.
    + cbn [bind]. intros Hrun. destruct (IH v Hrun) as [Hall Hkeep].
      split; [| exact Hkeep].
      intros s [<- | Hs]; [apply Hkeep; exact Hin | apply Hall; exact Hs].
    + destruct v as [| b | n | q | str | items | d]; cbn [py_setitem bind];
        try discriminate.
      intros Hrun. destruct (IH _ Hrun) as [Hall Hkeep].
      split.
      * intros s [<- | Hs]; [| apply Hall; exact Hs].
        apply Hkeep. cbn [py_in]. unfold dict_mem. rewrite dict_get_set.
        now rewrite String.eqb_refl.
      * intros s Hs. apply Hkeep. apply py_in_after_set. exact Hs.
Qed.

Lemma default_field_result (v v2 value : json) (section field : string) :
  default_field v section field value = Some v2 ->
  exists d d2 inner inner2,
    v = JObj d /\ v2 = JObj d2
    /\ dict_get d section = Some inner
    /\ dict_get d2 section = Some inner2
    /\ py_in field inner2 = Some true
    /\ (forall s, py_in s v = Some true -> py_in s v2 = Some true)
    /\ (forall f, py_in f inner = Some true -> py_in f inner2 = Some true).
Proof.
  unfold default_field.
  destruct v as [| b | n | q | str | items | d]; cbn [py_getitem bind];
    try discriminate.
  destruct (dict_get d section) as [inner |] eqn:Hsec; cbn [bind];
    [| discriminate].
  destruct (py_in field inner) as [present |] eqn:Hin; cbn [bind];
    [| discriminate].
  destruct present.
  - intros [= <-]. exists d, d, inner, inner. repeat split; auto.
  - destruct inner as [| b | n | q | str | items | g]; cbn [py_setitem bind];
      try discriminate.
    intros [= <-].
    exists d, (dict_set d section (JObj (dict_set g field value))),
      (JObj g), (JObj (dict_set g field value)).
    repeat split.
    + exact Hsec.
    + rewrite dict_get_set. now rewrite String.eqb_refl.
    + cbn [py_in]. unfold dict_mem. rewrite dict_get_set.
      now rewrite String.eqb_refl.
    + intros s Hs. apply py_in_after_set. exact Hs.
    + intros f Hf. apply py_in_after_set. exact Hf.
Qed.

Lemma validated_is_populated (v v' : json) :
  _validate_response v = Some v' -> populated v'.
Proof.
  unfold _validate_response.
  destruct (ensure_sections required_sections v) as [v1 |] eqn:Hsec;
    cbn [bind]; [| discriminate].
  destruct (ensure_sections_present _ _ _ Hsec) as [Hall _].
  rewrite (Hall "glucose_assessment") by (cbn; tauto). cbn [bind].
  destruct (default_field v1 _ _ _) as [v2 |] eqn:Hfirst; cbn [bind];
    [| discriminate].
  intros Hsecond.
  destruct (default_field_result _ _ _ _ _ Hfirst)
    as (d1 & d2 & i1 & i2 & -> & -> & _ & Hi2 & Hp & Hkeep1 & _).
  destruct (default_field_result _ _ _ _ _ Hsecond)
    as (d2' & d3 & i2' & i3 & Heq & -> & Hi2' & Hi3 & Hc & Hkeep2 & Hinner).
  injection Heq as <-. rewrite Hi2 in Hi2'. injection Hi2' as <-.
  exists d3, i3. split; [reflexivity |]. split; [| split; [exact Hi3 |]].
  - intros s Hs. specialize (Hkeep2 s (Hkeep1 s (Hall s Hs))).
    cbn [py_in] in Hkeep2. congruence.
  - split; [apply Hinner; exact Hp | exact Hc].
Qed.

Lemma fallback_is_populated : populated _generate_fallback_response.
Proof.
  unfold populated, _generate_fallback_response. eexists. eexists.
  split; [reflexivity |]. split; [| repeat split; reflexivity].
  intros s Hs. cbn [required_sections In] in Hs.
  repeat destruct Hs as [<- | Hs]; try reflexivity. contradiction.
Qed.

Lemma parse_response_cases (claude_response : option string) :
  parse_response claude_response = _generate_fallback_response
  \/ exists v, _validate_response v = Some (parse_response claude_response).
Proof.
  destruct claude_response as [text |]; [| now left].
  destruct text as [| c s] eqn:Htext; [now left |].
  rewrite <- Htext.
  assert (Hne : text <> "") by (subst; discriminate).
  rewrite (parse_response_nonempty text Hne).
  destruct (_ && _); [| now left].
  destruct (json_loads _) as [parsed |]; cbn [bind]; [| now left].
  destruct (_validate_response parsed) as [v' |] eqn:Hval; [| now left].
  right. now exists parsed.
Qed.



(** X10. Whatever the reasoning service replied (nothing, an empty text, any
    text at all), and whatever [json.loads] makes of it, the prediction
    [parse_response] returns is a dictionary with the four sections whose
    [glucose_assessment] passes the tests ['primary_estimate' in ...] and
    ['confidence_score' in ...]. *)
Theorem parse_response_is_populated (claude_response : option string) :
  populated (parse_response claude_response).
Proof.
  destruct (parse_response_cases claude_response) as [-> | [v Hv]].
  - exact fallback_is_populated.
  - exact (validated_is_populated _ _ Hv).
Qed.

Lemma ensure_sections_unchanged (sections : list string) (v : json) :
  (forall s, In s sections -> py_in s v = Some true) ->
  ensure_sections sections v = Some v.
Proof.
  induction sections as [| section sections IH]; intros Hall; [reflexivity |].
  cbn [ensure_sections]. rewrite (Hall section) by (left; reflexivity).
  cbn [bind]. apply IH. intros s Hs. apply Hall. now right.
Qed.

(** X11. Validation is idempotent: a response that [_validate_response] has
    returned passes a second validation unchanged. *)
Theorem validate_response_idempotent (response validated : json) :
  _validate_response response = Some validated ->
  _validate_response validated = Some validated.
Proof.
  intros Hval.
  destruct (validated_is_populated _ _ Hval) as (d & g & -> & Hall & Hg & Hp & Hc).
  unfold _validate_response.
  rewrite ensure_sections_unchanged.
  2:{ intros s Hs. cbn [py_in]. now rewrite (Hall s Hs). }
  cbn [bind py_in]. rewrite (Hall "glucose_assessment") by (cbn; tauto).
  unfold default_field. cbn [py_getitem bind]. rewrite Hg. cbn [bind].
  rewrite Hp. cbn [bind py_getitem]. rewrite Hg. cbn [bind]. rewrite Hc.
  reflexivity.
Qed.

(** X12. A reply that parses to an object whose [glucose_assessment] is
    null, a boolean, an integer or a float is answered with the fallback:
    the membership test on such a value raises, and the handler of
    [parse_response] returns the fallback record, dropping every other field
    of the reply. *)
Theorem scalar_assessment_is_rejected
    (text : string) (d : list (string * json)) (v : json) :
  text <> "" ->
  json_loads (slice text (find "{" text) (rfind "}" text + 1)) = Some (JObj d) ->
  dict_get d "glucose_assessment" = Some v ->
  (v = JNull \/ (exists b, v = JBool b) \/ (exists n, v = JInt n)
   \/ (exists q, v = JNum q)) ->
  parse_response (Some text) = _generate_fallback_response.
Proof.
  intros Hne Hloads Hv Hscalar. apply parse_response_unusable.
  cbn [unusable]. right. right. right. right.
  exists (JObj d). split; [exact Hloads |].
  unfold _validate_response.
  destruct (ensure_sections_object required_sections d) as (d1 & Hrun & Hget).
  rewrite Hrun. cbn [bind py_in]. unfold dict_mem.
  specialize (Hget "glucose_assessment"). rewrite Hv in Hget. rewrite Hget.
  unfold default_field. cbn [py_getitem bind]. rewrite Hget. cbn [bind].
  destruct Hscalar as [-> | [[b ->] | [[n ->] | [q ->]]]]; reflexivity.
Qed.

(** X13. [analyze_voice_data] never returns a falsy value: an empty
    structured output is replaced by the wrapper's fallback like a missing
    one. *)
Theorem analyze_voice_data_is_truthy (conversation : json) (metrics : option json) :
  truthy (AnthropicService.analyze_voice_data conversation metrics) = true.
Proof.
  unfold AnthropicService.analyze_voice_data.
  destruct (AnthropicService.voice_data_prompt conversation metrics);
    [| reflexivity].
  destruct (AnthropicService.generate_structured_output _ _ _ _) as [result |];
    [| reflexivity].
  destruct (truthy result) eqn:Ht; [exact Ht | reflexivity].
Qed.

End GatewayExtras.

(** ** Response synthesizer and voice service *)

Section SynthesizerExtras.
Import Py Json ClaudeInference VoiceSynthesis.

Section Scripts.
Context `{JsonLib} `{VoiceService} `{ScriptText}.





(** X17. A reply of [synthesize_response] either reports the missing
    prediction, with neither script nor audio reference, or carries a script
    and no error; it never carries an audio reference without a script, and
    the first case happens exactly when the prediction or its
    [glucose_prediction] entry is falsy. *)
Theorem voice_reply_shape (prediction user_profile : json) (reply : voice_reply) :
  synthesize_response prediction user_profile = Some reply ->
  (error reply = Some "Missing glucose prediction"
   /\ voice_script reply = None /\ voice_response reply = None
   /\ (truthy prediction = false
       \/ exists glucose, py_get prediction "glucose_prediction" JNull = Some glucose
                          /\ truthy glucose = false))
  \/ (error reply = None
      /\ exists glucose,
           py_get prediction "glucose_prediction" JNull = Some glucose
           /\ truthy prediction = true /\ truthy glucose = true
           /\ voice_script reply
              = Some (fst (create_voice_script glucose user_profile))).
Proof.
  unfold synthesize_response.
  destruct (truthy prediction) eqn:Hp; cbn [negb].
  2:{ intros [= <-]. left. cbn. auto. }
  destruct (py_get prediction "glucose_prediction" JNull) as [glucose |] eqn:Hget;
    cbn [bind]; [| discriminate].
  destruct (truthy glucose) eqn:Hg; cbn [negb].
  2:{ intros [= <-]. left. cbn.
      split; [reflexivity |]. split; [reflexivity |]. split; [reflexivity |].
      right. exists glucose. split; [reflexivity | exact Hg]. }
  destruct (create_voice_script glucose user_profile) as [script config] eqn:Hs.
  intros [= <-]. right. cbn. split; [reflexivity |]. exists glucose.
  rewrite Hs. repeat split; assumption || reflexivity.
Qed.



End Scripts.

End SynthesizerExtras.

(** ** Orchestrator *)

Section OrchestratorExtras.
Import Py Json PortiaService.
Context `{JsonLib} `{AnthropicService.AnthropicClient}
        `{ElevenLabsService.Transport} `{PortiaWorld}.

Lemma text_to_speech_path (text voice : string) (s b : Q) (fmt path : string) :
  ElevenLabsService.text_to_speech text voice s b fmt = Some path
  <-> exists content,
        ElevenLabsService.requests_post
          (ElevenLabsService.api_url ++ "/text-to-speech/" ++ voice)%string
          text s b fmt = Some (200%Z, content)
        /\ ElevenLabsService.write_temp_file content = Some path.
Proof.
  unfold ElevenLabsService.text_to_speech. split.
  - destruct (ElevenLabsService.requests_post _ _ _ _ _) as [[status content] |];
      [| discriminate].
    destruct (Z.eqb_spec status 200) as [-> | _]; [| discriminate].
    destruct (ElevenLabsService.write_temp_file content) as [p |] eqn:Hw;
      [| discriminate].
    intros [= <-]. now exists content.
  - intros (content & -> & Hw). cbn. now rewrite Hw.
Qed.

(** X20. The orchestrator's voice step hands on what the voice service
    returned: whenever [_synthesize_voice_sync] returns, its audio reference
    is a path exactly when the request for the serious voice was answered
    with status 200 and the audio was written to that path, and it is null in
    every other case. *)
Theorem sync_voice_reference (prediction user_context : json) (audio : option string) :
  _synthesize_voice_sync prediction user_context = Some audio ->
  exists text,
    forall path,
      audio = Some path
      <-> exists content,
            ElevenLabsService.requests_post
              "https://api.elevenlabs.io/v1/text-to-speech/21m00Tcm4TlvDq8ikWAM"
              text (7 # 10) (7 # 10) "mp3_44100_128" = Some (200%Z, content)
            /\ ElevenLabsService.write_temp_file content = Some path.
Proof.
  unfold _synthesize_voice_sync.
  repeat match goal with
         | |- context [bind ?x _] => destruct x; cbn [bind]; [| discriminate]
         end.
  cbn [dict_get ElevenLabsService.voice_ids]. rewrite String.eqb_refl.
  intros [= <-]. eexists. intros path. apply text_to_speech_path.
Qed.

(** X21. A failed reasoning request is reported as a success: when the
    context text is assembled and every request to the reasoning service
    fails, [run_glucose_analysis_sync] returns the success dictionary with
    the wrapper's fallback as prediction and the confidence 0.75, and asks
    the voice service to speak that fallback. *)
Theorem failed_reasoning_is_reported_as_success
    (audio_data user_context : json) (session_id context : string) (percent : Z) :
  formatted_context user_context 512 drawn_quality_metrics = Some context ->
  (forall model budget system user,
      AnthropicService.messages_create model budget system user = None) ->
  percent_of (JNum (3 # 4)) = Some percent ->
  run_glucose_analysis_sync audio_data user_context session_id
  = Succeeded session_id AnthropicService._generate_fallback_response
      (ElevenLabsService.text_to_speech
         (response_text (JStr "normal") (JStr "80-120 mg/dL") percent
            (JStr "minimal")
            (JStr "Continue with your normal routine. No immediate action required based on this assessment."))
         "21m00Tcm4TlvDq8ikWAM" (7 # 10) (7 # 10) "mp3_44100_128")
      (JNum (3 # 4)).
Proof.
  intros Hcontext Hfail Hpercent.
  assert (Hanalysis : forall conversation metrics,
    AnthropicService.analyze_voice_data conversation metrics
    = AnthropicService._generate_fallback_response).
  { intros conversation metrics. unfold AnthropicService.analyze_voice_data.
    destruct (AnthropicService.voice_data_prompt conversation metrics);
      [| reflexivity].
    unfold AnthropicService.generate_structured_output. rewrite Hfail.
    reflexivity. }
  unfold run_glucose_analysis_sync, _run_claude_inference_sync,
    _extract_embeddings_sync, _preprocess_audio_sync. cbv zeta.
  rewrite length_map, length_seq.
  cbn [py_get dict_get String.eqb Ascii.eqb Bool.eqb bind].
  rewrite Hcontext. cbn [bind]. rewrite Hanalysis.
  unfold _synthesize_voice_sync.
  cbn [AnthropicService._generate_fallback_response py_get dict_get
         String.eqb Ascii.eqb Bool.eqb bind ElevenLabsService.voice_ids].
  rewrite Hpercent. reflexivity.
Qed.

End OrchestratorExtras.

(** ** Data models and storage *)

Section StorageExtras.
Import Py Json Models.

Lemma py_or_absorbs (a b c : json) :
  truthy b = true -> py_or (py_or a b) c = py_or a b.
Proof.
  intros Hb. unfold py_or. destruct (truthy a) eqn:Ha.
  - now rewrite Ha.
  - now rewrite Hb.
Qed.

Lemma py_or_same (a b : json) : py_or (py_or a b) b = py_or a b.
Proof.
  unfold py_or. destruct (truthy a) eqn:Ha.
  - now rewrite Ha.
  - now destruct (truthy b).
Qed.

Lemma py_or_truthy (a b : json) : truthy b = true -> truthy (py_or a b) = true.
Proof. intros Hb. unfold py_or. now destruct (truthy a) eqn:Ha. Qed.

Lemma uuid_is_truthy (env : draw) : uuid4 env <> "" -> truthy (JStr (uuid4 env)) = true.
Proof.
  intros Hne. cbn [truthy].
  destruct (String.eqb_spec (uuid4 env) ""); [contradiction | reflexivity].
Qed.

(** X22. A prediction instance survives the round trip through its
    dictionary: [from_dict(to_dict(x))] is [x] again for every instance the
    constructor builds, without drawing a new identifier or a new time, and
    such an instance always has a truthy identifier and creation time. *)
Theorem prediction_round_trip (env later : draw)
    (id session_id prediction_result confidence_score claude_response
       created_at : json) :
  uuid4 env <> "" ->
  truthy (now env) = true ->
  let x := GlucosePrediction.init env id session_id prediction_result
             confidence_score claude_response created_at in
  GlucosePrediction.from_dict later (Some (GlucosePrediction.to_dict x)) = Some x
  /\ truthy (GlucosePrediction.id x) = true
  /\ truthy (GlucosePrediction.created_at x) = true.
Proof.
  intros Huuid Hnow x. apply uuid_is_truthy in Huuid.
  split; [| split].
  - unfold GlucosePrediction.from_dict, GlucosePrediction.to_dict.
    cbn [get get_or dict_get String.eqb Ascii.eqb Bool.eqb].
    subst x. unfold GlucosePrediction.init.
    cbn [GlucosePrediction.id GlucosePrediction.session_id
           GlucosePrediction.prediction_result GlucosePrediction.confidence_score
           GlucosePrediction.claude_response GlucosePrediction.created_at].
    rewrite !py_or_same, !py_or_absorbs by assumption. reflexivity.
  - apply py_or_truthy. exact Huuid.
  - apply py_or_truthy. exact Hnow.
Qed.

(** X23. A voice session survives the same round trip: [from_dict(to_dict(x))]
    is [x] again, embeddings included, for every instance the constructor
    builds. *)
Theorem voice_session_round_trip (env later : draw)
    (id user_id audio_file_path embeddings quality_metrics user_context
       created_at : json) :
  uuid4 env <> "" ->
  truthy (now env) = true ->
  let x := VoiceSession.init env id user_id audio_file_path embeddings
             quality_metrics user_context created_at in
  VoiceSession.from_dict later (Some (VoiceSession.to_dict x)) = Some x
  /\ VoiceSession.embeddings x = embeddings.
Proof.
  intros Huuid Hnow x. apply uuid_is_truthy in Huuid. split; [| reflexivity].
  unfold VoiceSession.from_dict, VoiceSession.to_dict.
  cbn [get get_or dict_get String.eqb Ascii.eqb Bool.eqb].
  subst x. unfold VoiceSession.init.
  cbn [VoiceSession.id VoiceSession.user_id VoiceSession.audio_file_path
         VoiceSession.embeddings VoiceSession.quality_metrics
         VoiceSession.user_context VoiceSession.created_at].
  rewrite !py_or_same, !py_or_absorbs by assumption. reflexivity.
Qed.

Section Predictions.
Import ClaudeInference SupabasePredictions.
Context `{JsonLib} `{PyText}.

(** X24. The confidence column of a stored prediction: for a dictionary
    whose [glucose_assessment], when present, is an object, it is the
    confidence inside [glucose_assessment] when there is one, else the
    confidence at the top level, else null. *)
Theorem stored_confidence (d : list (string * json)) :
  (forall v, dict_get d "glucose_assessment" = Some v -> exists g, v = JObj g) ->
  confidence_of (JObj d)
  = Some match dict_get (assessment_members d) "confidence_score" with
         | Some v => v
         | None =>
             match dict_get d "confidence_score" with
             | Some v => v
             | None => JNull
             end
         end.
Proof.
  intros Hobj. unfold confidence_of, assessment_members, dict_mem.
  destruct (dict_get d "glucose_assessment") as [v |] eqn:Hv.
  - destruct (Hobj v eq_refl) as [g ->]. cbn [bind py_in py_getitem].
    unfold dict_mem.
    destruct (dict_get g "confidence_score") as [c |]; cbn [bind];
      [reflexivity |].
    destruct (dict_get d "confidence_score"); reflexivity.
  - cbn [bind dict_get]. destruct (dict_get d "confidence_score"); reflexivity.
Qed.

(** X25. A prediction handed over as text: a text that is not JSON is stored
    wrapped under [raw_prediction] with null confidence, while a text that is
    JSON for anything but an object makes [store_prediction] raise, because
    the record is completed with [prediction_json.get]. *)
Theorem text_prediction_record (session_id : json) (text : string) :
  (json_loads text = None ->
   prediction_record session_id (JStr text)
   = Some [ ("session_id", session_id);
            ("prediction_result", JObj [("raw_prediction", JStr text)]);
            ("confidence_score", JNull);
            ("claude_response", JNull) ])
  /\ (forall v, json_loads text = Some v -> (forall d, v <> JObj d) ->
      prediction_record session_id (JStr text) = None).
Proof.
  unfold prediction_record, prediction_json_of. split.
  - intros ->. reflexivity.
  - intros v -> Hv.
    destruct v as [| b | n | q | s | items | d]; try reflexivity.
    exfalso. exact (Hv d eq_refl).
Qed.

End Predictions.

Section StorageAgent.
Import DatabaseManager.
Context `{Manager}.

(** X26. The storage agent never stores results: its call of
    [create_voice_session] passes the keywords [session_id], [embeddings] and
    [audio_quality], which the manager's method does not have, so the call
    raises and [store_results] answers every input, whatever the database
    does, with the failure dictionary of its handler. *)
Theorem store_results_never_succeeds
    (session_id user_id embeddings prediction voice_response audio_quality : json) :
  binds create_voice_session_parameters
    ["session_id"; "user_id"; "embeddings"; "audio_quality"] = false
  /\ store_results session_id user_id embeddings prediction voice_response
       audio_quality = Error.
Proof. split; reflexivity. Qed.

(** X27. The storage agent never reports a feedback identifier: when the
    manager has stored the feedback and returns the instance, reading
    [feedback.get('id')] raises and the agent reports a failure; the only
    success it reports is the one without a row, with a null identifier. *)
Theorem store_feedback_never_reports_id
    (session_id actual_glucose feedback_rating comments : json) :
  let r := agent_store_feedback session_id actual_glucose feedback_rating comments in
  (store_feedback session_id actual_glucose feedback_rating comments = Some true ->
   r = Error)
  /\ (store_feedback session_id actual_glucose feedback_rating comments = Some false ->
      r = Feedback JNull)
  /\ (r = Error \/ r = Feedback JNull).
Proof.
  cbv zeta. unfold agent_store_feedback.
  cbn [binds store_feedback_parameters map fst snd forallb in_list existsb
         String.eqb Ascii.eqb Bool.eqb orb andb].
  destruct (store_feedback _ _ _ _) as [[|] |]; cbn [bind id_of_instance];
    repeat split; intros; try discriminate; auto.
Qed.

End StorageAgent.

End StorageExtras.

(** ** Health context of the prompt *)

Section PromptExtras.
Import Py Json ContextService PromptContext.

Lemma take_keeps_truthy (source current v : json) (key : string) :
  take source key current = Some v -> truthy current = true -> truthy v = true.
Proof.
  unfold take. destruct (py_get source key JNull) as [w |]; cbn [bind];
    [| discriminate].
  intros [= <-] Hc. now destruct (truthy w) eqn:Hw.
Qed.

Lemma take_prefers_entry (d : list (string * json)) (current v w : json)
    (key : string) :
  take (JObj d) key current = Some v ->
  dict_get d key = Some w -> truthy w = true -> v = w.
Proof.
  unfold take. cbn [py_get bind]. intros [= <-] -> Hw. now rewrite Hw.
Qed.

Lemma timed_notes (s : string) :
  s <> "" ->
  special_notes (determine_metabolic_phase (Some s))
  <> "insufficient meal timing data".
Proof.
  destruct s as [| c s]; [contradiction |]. intros _.
  unfold determine_metabolic_phase, phases. cbn [dict_get].
  repeat match goal with
         | |- context [String.eqb (String c s) ?k] =>
             destruct (String.eqb_spec (String c s) k) as [_ | _]
         end; discriminate.
Qed.

Lemma health_context_stages (user_responses d m s : json) :
  health_context user_responses = Some (d, m, s) ->
  exists d0 m0 s0,
    truthy d0 = true /\ truthy m0 = true
    /\ take user_responses "diabetes_status" d0 = Some d
    /\ take user_responses "meal_timing" m0 = Some m
    /\ take user_responses "symptoms" s0 = Some s.
Proof.
  unfold health_context. cbv zeta.
  destruct (py_get user_responses "user_context" JNull) as [context |];
    cbn [bind]; [| discriminate].
  match goal with
  | |- context [bind ?stage _] => destruct stage as [[[d0 m0] s0] |] eqn:Hstage
  end; cbn [bind]; [| discriminate].
  assert (Htruthy : truthy d0 = true /\ truthy m0 = true).
  { revert Hstage. destruct (truthy context).
    2:{ intros [= <- <- <-]. split; reflexivity. }
    destruct (take context "diabetes_status" _) as [d1 |] eqn:Hd1; cbn [bind];
      [| discriminate].
    destruct (take context "meal_timing" _) as [m1 |] eqn:Hm1; cbn [bind];
      [| discriminate].
    destruct (take context "symptoms" _) as [s1 |]; cbn [bind]; [| discriminate].
    destruct (py_get context "responses" JNull) as [responses |]; cbn [bind];
      [| discriminate].
    pose proof (take_keeps_truthy _ _ _ _ Hd1 eq_refl) as Htd1.
    pose proof (take_keeps_truthy _ _ _ _ Hm1 eq_refl) as Htm1.
    destruct (truthy responses).
    2:{ intros [= <- <- <-]. split; assumption. }
    destruct (take responses "diabetes_status" d1) as [d2 |] eqn:Hd2; cbn [bind];
      [| discriminate].
    destruct (take responses "meal_timing" m1) as [m2 |] eqn:Hm2; cbn [bind];
      [| discriminate].
    destruct (take responses "symptoms" s1) as [s2 |]; cbn [bind];
      [| discriminate].
    intros [= <- <- <-]. split.
    - exact (take_keeps_truthy _ _ _ _ Hd2 Htd1).
    - exact (take_keeps_truthy _ _ _ _ Hm2 Htm1). }
  destruct Htruthy as [Htd Htm].
  destruct (take user_responses "diabetes_status" d0) as [d' |] eqn:Hd;
    cbn [bind]; [| discriminate].
  destruct (take user_responses "meal_timing" m0) as [m' |] eqn:Hm;
    cbn [bind]; [| discriminate].
  destruct (take user_responses "symptoms" s0) as [s' |] eqn:Hs;
    cbn [bind]; [| discriminate].
  intros [= <- <- <-]. exists d0, m0, s0. auto.
Qed.

(** X28. The prompt never works from a missing status or meal timing: the
    diabetes status and the meal timing the prompt is built from are always
    truthy (the text "Unknown" when nothing is supplied), so the meal-timing
    scorer never answers the prompt builder with its note "insufficient meal
    timing data". *)
Theorem prompt_context_is_never_missing (user_responses d m s : json) :
  health_context user_responses = Some (d, m, s) ->
  truthy d = true /\ truthy m = true
  /\ forall p, metabolic_phase_of m = Some p ->
       special_notes p <> "insufficient meal timing data".
Proof.
  intros Hctx.
  destruct (health_context_stages _ _ _ _ Hctx)
    as (d0 & m0 & s0 & Htd & Htm & Hd & Hm & _).
  pose proof (take_keeps_truthy _ _ _ _ Hd Htd) as Hd'.
  pose proof (take_keeps_truthy _ _ _ _ Hm Htm) as Hm'.
  split; [exact Hd' |]. split; [exact Hm' |].
  intros p. destruct m as [| b | n | q | str | items | members];
    cbn [metabolic_phase_of].
  - discriminate Hm'.
  - rewrite Hm'. intros [= <-]. discriminate.
  - rewrite Hm'. intros [= <-]. discriminate.
  - rewrite Hm'. intros [= <-]. discriminate.
  - intros [= <-]. apply timed_notes. intros ->. discriminate Hm'.
  - destruct items; [discriminate Hm' | discriminate].
  - destruct members; [discriminate Hm' | discriminate].
Qed.

(** X29. A truthy entry given directly in the user responses wins over what
    the user context and its [responses] say, for the diabetes status, the
    meal timing and the symptoms alike. *)
Theorem direct_entries_win (responses : list (string * json)) (d m s : json) :
  health_context (JObj responses) = Some (d, m, s) ->
  (forall v, dict_get responses "diabetes_status" = Some v -> truthy v = true ->
     d = v)
  /\ (forall v, dict_get responses "meal_timing" = Some v -> truthy v = true ->
      m = v)
  /\ (forall v, dict_get responses "symptoms" = Some v -> truthy v = true ->
      s = v).
Proof.
  intros Hctx.
  destruct (health_context_stages _ _ _ _ Hctx)
    as (d0 & m0 & s0 & _ & _ & Hd & Hm & Hs).
  split; [| split]; intros v Hv Ht.
  - exact (take_prefers_entry _ _ _ _ _ Hd Hv Ht).
  - exact (take_prefers_entry _ _ _ _ _ Hm Hv Ht).
  - exact (take_prefers_entry _ _ _ _ _ Hs Hv Ht).
Qed.

End PromptExtras.

(** ** Worked instances of the further properties *)

Section FurtherInstances.
Import Py Numeric Json ContextService AudioProcessor SupabaseService
       ClaudeInference VoiceSynthesis MiniJson Standins Instances MoreStandins.

Lemma symptom_order_is_irrelevant_witness :
  analyze_symptom_constellation
    (Some ["Blurred vision"; "Shakiness or tremors"; "Frequent urination"])
  = analyze_symptom_constellation
      (Some ["Shakiness or tremors"; "Frequent urination"; "Blurred vision"]).
Proof.
  apply symptom_order_is_irrelevant.
  apply Permutation_cons_app with (l1 := ["Shakiness or tremors"; "Frequent urination"])
                                  (l2 := []).
  reflexivity.
Defined.

Lemma assessors_agree_witness :
  _assess_audio_quality (Some (waveform two_samples, sample_rate two_samples))
  = {| snr := Some 10%Q;
       metrics_duration := Some (1 # 8000)%Q;
       AudioProcessor.clarity := 40;
       spectral_quality := 84 |}.
Proof.
  exact (assessors_agree two_samples
           {| snr := Some 10%Q;
              metrics_duration := Some (1 # 8000)%Q;
              AudioProcessor.clarity := 40;
              spectral_quality := 84 |}
           (Some (1 # 8000)%Q) eq_refl eq_refl).
Defined.

Lemma validate_response_idempotent_witness :
  exists validated,
    _validate_response (JObj [("glucose_assessment", JObj [])]) = Some validated
    /\ _validate_response validated = Some validated.
Proof.
  eexists. split; [reflexivity |].
  apply (validate_response_idempotent (JObj [("glucose_assessment", JObj [])])).
  reflexivity.
Defined.

Lemma scalar_assessment_is_rejected_witness :
  parse_response (Some null_assessment_reply)
  = ClaudeInference._generate_fallback_response.
Proof.
  apply (scalar_assessment_is_rejected null_assessment_reply
           [("glucose_assessment", JNull)] JNull).
  - discriminate.
  - vm_compute. reflexivity.
  - reflexivity.
  - left. reflexivity.
Defined.



Lemma voice_reply_shape_witness :
  exists reply,
    synthesize_response (H := raising_voice_service) (JObj []) (JObj []) = Some reply
    /\ error reply = Some "Missing glucose prediction"
    /\ voice_script reply = None.
Proof.
  eexists. split; [reflexivity |].
  destruct (voice_reply_shape (H0 := raising_voice_service) (JObj []) (JObj []) _ eq_refl)
    as [(He & Hs & _) | (He & _)]; [split; assumption | discriminate He].
Defined.


Lemma sync_voice_reference_witness :
  PortiaService._synthesize_voice_sync (H1 := transport_with 200)
    critical_assessment (JObj []) = Some (Some "/tmp/voice.mp3")
  /\ exists text,
       forall path,
         Some "/tmp/voice.mp3" = Some path
         <-> exists content,
               ElevenLabsService.requests_post (Transport := transport_with 200)
                 "https://api.elevenlabs.io/v1/text-to-speech/21m00Tcm4TlvDq8ikWAM"
                 text (7 # 10) (7 # 10) "mp3_44100_128" = Some (200%Z, content)
               /\ ElevenLabsService.write_temp_file (Transport := transport_with 200)
                    content = Some path.
Proof.
  split; [reflexivity |].
  exact (sync_voice_reference (H1 := transport_with 200)
           critical_assessment (JObj []) (Some "/tmp/voice.mp3") eq_refl).
Defined.

Lemma failed_reasoning_is_reported_as_success_witness :
  PortiaService.run_glucose_analysis_sync
    (H0 := client_with None) (H1 := transport_with 200)
    (JStr "upload.wav") (JObj [("user_id", JStr "u1")]) "session-1"
  = PortiaService.Succeeded "session-1"
      AnthropicService._generate_fallback_response
      (Some "/tmp/voice.mp3") (JNum (3 # 4)).
Proof.
  exact (failed_reasoning_is_reported_as_success
           (H0 := client_with None) (H1 := transport_with 200)
           (JStr "upload.wav") (JObj [("user_id", JStr "u1")]) "session-1"
           "User Health Context" 75 eq_refl (fun _ _ _ _ => eq_refl) eq_refl).
Defined.

Lemma prediction_round_trip_witness :
  let x := Models.GlucosePrediction.init first_draw JNull (JStr "session-1")
             ClaudeInference._generate_fallback_response (JNum (3 # 10))
             JNull JNull in
  Models.GlucosePrediction.from_dict second_draw
    (Some (Models.GlucosePrediction.to_dict x)) = Some x
  /\ Models.GlucosePrediction.id x = JStr "0b7e1f0c-5a55-4d0e-9d3c-2f1f4c1d9a10".
Proof.
  cbv zeta. split; [| reflexivity].
  apply (prediction_round_trip first_draw second_draw); [discriminate | reflexivity].
Defined.

Lemma voice_session_round_trip_witness :
  let x := Models.VoiceSession.init first_draw JNull (JStr "u1")
             (JStr "voice_samples/audio_1a2b3c4d.wav") (JArr [JNum 0; JNum 1])
             JNull JNull JNull in
  Models.VoiceSession.from_dict second_draw
    (Some (Models.VoiceSession.to_dict x)) = Some x.
Proof.
  cbv zeta.
  apply (voice_session_round_trip first_draw second_draw); [discriminate | reflexivity].
Defined.

Lemma stored_confidence_witness :
  SupabasePredictions.confidence_of
    (JObj [ ("confidence_score", JNum (9 # 10));
            ("glucose_assessment", JObj [("confidence_score", JNum (4 # 10))]) ])
  = Some (JNum (4 # 10)).
Proof.
  apply (stored_confidence
           [ ("confidence_score", JNum (9 # 10));
             ("glucose_assessment", JObj [("confidence_score", JNum (4 # 10))]) ]).
  intros v Hv. injection Hv as <-. eexists. reflexivity.
Defined.

Lemma prompt_context_is_never_missing_witness :
  PromptContext.health_context (JObj [])
  = Some (JStr "Unknown", JStr "Unknown", JArr [])
  /\ special_notes (determine_metabolic_phase (Some "Unknown"))
     <> "insufficient meal timing data".
Proof.
  split; [reflexivity |].
  apply (prompt_context_is_never_missing (JObj []) (JStr "Unknown")
           (JStr "Unknown") (JArr []) eq_refl).
  reflexivity.
Defined.

Lemma direct_entries_win_witness :
  exists d m s,
    PromptContext.health_context (JObj layered_responses) = Some (d, m, s)
    /\ d = JStr "Gestational diabetes"
    /\ s = JArr [JStr "Blurred vision"].
Proof.
  eexists. eexists. eexists. split; [reflexivity |].
  split; [| reflexivity].
  apply (direct_entries_win layered_responses _ _ _ eq_refl); reflexivity.
Defined.

End FurtherInstances.
